(** * Code-host registrations and the OAuth state-transfer protocol

    A shallow embedding of
    [pkg/microservice/systemconfig/core/codehost/service/codehost.go]
    (package [service] of zadig) and the properties of its record lifecycle,
    authorization initiator and callback resolver.

    Go strings are byte sequences, so they are Rocq [string]s (lists of
    8-bit [ascii]).  A Go [int] is a [Z]; the only arithmetic in the file
    is [len(list) + 1], which cannot leave the 64-bit range because a
    slice length is at most [2^63 - 1] elements of at least one byte.
    A Go result [(T, error)] is a sum [error + T] for the collaborators
    and the literal pair [string * option error] for the three functions
    that return a URL string next to the error.  Calls to the logger are
    left out: the logger is write-only and no result depends on it. *)

From Stdlib Require Import String Ascii List ZArith NArith Lia Bool.
From Stdlib Require Import DecimalString.
Import ListNotations.
Local Open Scope string_scope.
Local Open Scope Z_scope.

(* ================================================================= *)
(** ** Errors *)

(** Go's [errors.New(msg)] and [err.Error()]. *)
Record error : Type := errors_New { Error : string }.

(** Modelled from the spec: the error a store operation by id reports
    when no record has that id (error taxonomy, [NotFound]); the package
    [repository/mongodb] that produces it is not part of this file. *)
Definition ErrNotFound : error := errors_New "NotFound".

(** Modelled from the spec: the error of a store operation that cannot
    reach the store (error taxonomy, [StoreUnavailable]). *)
Definition ErrStoreUnavailable : error := errors_New "StoreUnavailable".

(* ================================================================= *)
(** ** Data model *)

(** Modelled from the spec: the fields of [models.CodeHost] that the data
    model lists; the struct declaration lives in [repository/models].
    [Type_] is the Go field [Type]. *)
Record CodeHost : Type := mkCodeHost {
  ID : Z;
  Type_ : string;
  Address : string;
  Username : string;
  Password : string;
  ApplicationId : string;
  ClientSecret : string;
  AccessToken : string;
  RefreshToken : string;
  IsReady : string;
  CreatedAt : Z;
  UpdatedAt : Z
}.

Definition set_ID (c : CodeHost) (v : Z) : CodeHost :=
  mkCodeHost v (Type_ c) (Address c) (Username c) (Password c)
    (ApplicationId c) (ClientSecret c) (AccessToken c) (RefreshToken c)
    (IsReady c) (CreatedAt c) (UpdatedAt c).

Definition set_AccessToken (c : CodeHost) (v : string) : CodeHost :=
  mkCodeHost (ID c) (Type_ c) (Address c) (Username c) (Password c)
    (ApplicationId c) (ClientSecret c) v (RefreshToken c)
    (IsReady c) (CreatedAt c) (UpdatedAt c).

Definition set_RefreshToken (c : CodeHost) (v : string) : CodeHost :=
  mkCodeHost (ID c) (Type_ c) (Address c) (Username c) (Password c)
    (ApplicationId c) (ClientSecret c) (AccessToken c) v
    (IsReady c) (CreatedAt c) (UpdatedAt c).

Definition set_IsReady (c : CodeHost) (v : string) : CodeHost :=
  mkCodeHost (ID c) (Type_ c) (Address c) (Username c) (Password c)
    (ApplicationId c) (ClientSecret c) (AccessToken c) (RefreshToken c)
    v (CreatedAt c) (UpdatedAt c).

Definition set_CreatedAt (c : CodeHost) (v : Z) : CodeHost :=
  mkCodeHost (ID c) (Type_ c) (Address c) (Username c) (Password c)
    (ApplicationId c) (ClientSecret c) (AccessToken c) (RefreshToken c)
    (IsReady c) v (UpdatedAt c).

Definition set_UpdatedAt (c : CodeHost) (v : Z) : CodeHost :=
  mkCodeHost (ID c) (Type_ c) (Address c) (Username c) (Password c)
    (ApplicationId c) (ClientSecret c) (AccessToken c) (RefreshToken c)
    (IsReady c) (CreatedAt c) v.

(** [type state struct] of the source: the correlation state. *)
Record state : Type := mkState {
  CodeHostID : Z;
  RedirectURL : string
}.

(** The token pair an adapter's [HandleCallback] returns
    ([token.AccessToken], [token.RefreshToken] in the source). *)
Record Token : Type := mkToken {
  tok_AccessToken : string;
  tok_RefreshToken : string
}.

(** [const callback] *)
Definition callback : string := "/api/directory/codehosts/callback".

(* ================================================================= *)
(** ** [encoding/base64]: the standard encoding with padding *)

Module base64.

Definition alphabet : list ascii :=
  list_ascii_of_string
    "ABCDEFGHIJKLMNOPQRSTUVWXYZabcdefghijklmnopqrstuvwxyz0123456789+/".

Definition digit (n : N) : ascii := nth (N.to_nat n) alphabet "="%char.

(** The four 6-bit groups of a 24-bit quantum. *)
Definition quad (v : N) (keep : nat) : string :=
  let d0 := digit (N.shiftr v 18) in
  let d1 := digit (N.land (N.shiftr v 12) 63) in
  let d2 := digit (N.land (N.shiftr v 6) 63) in
  let d3 := digit (N.land v 63) in
  match keep with
  | 2%nat => String d0 (String d1 "==")
  | 3%nat => String d0 (String d1 (String d2 "="))
  | _ => String d0 (String d1 (String d2 (String d3 "")))
  end.

(** [base64.StdEncoding.EncodeToString] on the bytes of [s]. *)
Fixpoint EncodeToString (s : string) : string :=
  match s with
  | "" => ""
  | String a "" =>
      quad (N.shiftl (N_of_ascii a) 16) 2
  | String a (String b "") =>
      quad (N.lor (N.shiftl (N_of_ascii a) 16) (N.shiftl (N_of_ascii b) 8)) 3
  | String a (String b (String c rest)) =>
      quad (N.lor (N.lor (N.shiftl (N_of_ascii a) 16) (N.shiftl (N_of_ascii b) 8))
                  (N_of_ascii c)) 4
      ++ EncodeToString rest
  end.

End base64.

(* ================================================================= *)
(** ** The world of a request: the record store and the wall clock *)

(** Modelled from the spec: the persistent store of code-host records
    ([repository/mongodb], not part of this file) is a document
    collection exposed as list/get/add/update/delete by id.  [docs] are
    the records an operation by id can find.  [retired] are the deleted
    records: the spec has a deleted record no longer found by id and
    its id never assigned again, while the id of a new record is read
    off the full list, so the store goes on holding what was deleted.
    Every operation can also find the store unreachable; [outages] is
    the oracle that decides it, one flag per store call ([true]: this
    call fails with [StoreUnavailable]; an exhausted oracle means
    reachable).  [clock] holds the successive readings of
    [time.Now().Unix()] ([0] once they are used up). *)
Record World : Type := World_of {
  docs : list CodeHost;
  retired : list CodeHost;
  outages : list bool;
  clock : list Z
}.

(** A world in which nothing has been deleted yet. *)
Definition mkWorld (d : list CodeHost) (o : list bool) (k : list Z) : World :=
  World_of d [] o k.

(** State passing: a computation reads and updates the world. *)
Definition M (A : Type) : Type := World -> A * World.

Definition ret {A : Type} (a : A) : M A := fun w => (a, w).

Definition bind {A B : Type} (m : M A) (k : A -> M B) : M B :=
  fun w => let (a, w') := m w in k a w'.

Declare Scope go_scope.
Delimit Scope go_scope with go.
Notation "x <- m ;; k" := (bind m (fun x => k))
  (at level 61, m at next level, right associativity) : go_scope.
Local Open Scope go_scope.

(** [time.Now().Unix()] *)
Definition time_Now_Unix : M Z :=
  fun w =>
    match clock w with
    | [] => (0, w)
    | t :: later => (t, World_of (docs w) (retired w) (outages w) later)
    end.

Module mongodb.

(** Modelled from the spec: one call on the store.  The call consumes one
    flag of the outage oracle; when reachable it runs [op] on the
    collection. *)
Definition call {A : Type}
    (op : list CodeHost -> (error + A) * list CodeHost) : M (error + A) :=
  fun w =>
    match outages w with
    | true :: later =>
        (inl ErrStoreUnavailable,
         World_of (docs w) (retired w) later (clock w))
    | false :: later =>
        let (r, d) := op (docs w) in
        (r, World_of d (retired w) later (clock w))
    | [] =>
        let (r, d) := op (docs w) in
        (r, World_of d (retired w) [] (clock w))
    end.

(** Modelled from the spec: one call of an operation that also sees the
    deleted records. *)
Definition call_full {A : Type}
    (op : list CodeHost -> list CodeHost
          -> (error + A) * (list CodeHost * list CodeHost))
  : M (error + A) :=
  fun w =>
    match outages w with
    | true :: later =>
        (inl ErrStoreUnavailable,
         World_of (docs w) (retired w) later (clock w))
    | false :: later =>
        let '(r, (d, g)) := op (docs w) (retired w) in
        (r, World_of d g later (clock w))
    | [] =>
        let '(r, (d, g)) := op (docs w) (retired w) in
        (r, World_of d g [] (clock w))
    end.

Definition has_id (id : Z) (c : CodeHost) : bool := ID c =? id.

(** Modelled from the spec: [list] with no filter, the full current
    list: every record the store holds, the deleted ones included. *)
Definition CodeHostList : M (error + list CodeHost) :=
  call_full (fun d g => (inr (d ++ g)%list, (d, g))).

(** Modelled from the spec: [add(record) -> CodeHostRecord]. *)
Definition AddCodeHost (c : CodeHost) : M (error + CodeHost) :=
  call (fun d => (inr c, d ++ [c])%list).

(** Modelled from the spec: [getById(id)], [NotFound] when absent. *)
Definition GetCodeHostByID (id : Z) : M (error + CodeHost) :=
  call (fun d =>
          match find (has_id id) d with
          | Some c => (inr c, d)
          | None => (inl ErrNotFound, d)
          end).

(** Modelled from the spec: [deleteById(id) -> ()], [NotFound] when
    absent; afterwards [getById] on that id fails with [NotFound], and
    the id is not assigned again: the records with the id are retired. *)
Definition DeleteCodeHostByID (id : Z) : M (option error) :=
  fun w =>
    let (r, w') :=
      call_full (fun d g =>
                   if existsb (has_id id) d
                   then (inr tt,
                         (filter (fun c => negb (has_id id c)) d,
                          (g ++ filter (has_id id) d)%list))
                   else (inl ErrNotFound, (d, g))) w in
    (match r with inl e => Some e | inr _ => None end, w').

Definition replace_by_id (f : CodeHost -> CodeHost) (id : Z)
    (d : list CodeHost) : list CodeHost :=
  map (fun c => if has_id id c then f c else c) d.

(** Modelled from the spec: [updateFields(record)], by id, [NotFound]
    when absent. *)
Definition UpdateCodeHost (host : CodeHost) : M (error + CodeHost) :=
  call (fun d =>
          if existsb (has_id (ID host)) d
          then (inr host, replace_by_id (fun _ => host) (ID host) d)
          else (inl ErrNotFound, d)).

(** Modelled from the spec: [updateTokenFields(record)]: the stored
    record with that id takes the access and refresh tokens of [host]. *)
Definition UpdateCodeHostByToken (host : CodeHost) : M (error + CodeHost) :=
  call (fun d =>
          if existsb (has_id (ID host)) d
          then (inr host,
                replace_by_id
                  (fun c => set_RefreshToken
                              (set_AccessToken c (AccessToken host))
                              (RefreshToken host))
                  (ID host) d)
          else (inl ErrNotFound, d)).

End mongodb.

(* ================================================================= *)
(** ** Record lifecycle *)

(** [fmt.Sprintf("%s:%s", a, b)] *)
Definition Sprintf_s_colon_s (a b : string) : string := a ++ ":" ++ b.

(** [func CreateCodeHost]: the provider-specific defaults, the two
    timestamps, then the id from the length of the full list. *)
Definition CreateCodeHost (codehost : CodeHost) : M (error + CodeHost) :=
  let codehost :=
    if String.eqb (Type_ codehost) "codehub"
    then set_IsReady codehost "2" else codehost in
  let codehost :=
    if String.eqb (Type_ codehost) "gerrit"
    then set_AccessToken (set_IsReady codehost "2")
           (base64.EncodeToString
              (Sprintf_s_colon_s (Username codehost) (Password codehost)))
    else codehost in
  created <- time_Now_Unix ;;
  let codehost := set_CreatedAt codehost created in
  updated <- time_Now_Unix ;;
  let codehost := set_UpdatedAt codehost updated in
  r <- mongodb.CodeHostList ;;
  match r with
  | inl err => ret (inl err)
  | inr list =>
      let codehost := set_ID codehost (Z.of_nat (length list) + 1) in
      mongodb.AddCodeHost codehost
  end.

(** [func DeleteCodeHost] *)
Definition DeleteCodeHost (id : Z) : M (option error) :=
  mongodb.DeleteCodeHostByID id.

(** [func UpdateCodeHost] *)
Definition UpdateCodeHost (host : CodeHost) : M (error + CodeHost) :=
  mongodb.UpdateCodeHost host.

(** [func UpdateCodeHostByToken] *)
Definition UpdateCodeHostByToken (host : CodeHost) : M (error + CodeHost) :=
  mongodb.UpdateCodeHostByToken host.

(** [func GetCodeHost] *)
Definition GetCodeHost (id : Z) : M (error + CodeHost) :=
  mongodb.GetCodeHostByID id.

(* ================================================================= *)
(** ** Collaborators of the OAuth flow *)

(** [net/url]: the fields of [url.URL] the service and its test double
    use. *)
Record URL : Type := mkURL {
  Scheme : string;
  Opaque : string;
  Host : string;
  Path : string;
  OmitHost : bool;
  ForceQuery : bool;
  RawQuery : string;
  Fragment : string
}.

(** [url.Values], a [map[string][]string], as an association list. *)
Definition Values : Type := list (string * list string).

(** [Values.Add(key, value)]: appends [value] to the values of [key] in
    the map it is called on. *)
Fixpoint Values_Add (v : Values) (key value : string) : Values :=
  match v with
  | [] => [(key, [value])]
  | (k, vs) :: rest =>
      if String.eqb k key then (k, vs ++ [value])%list :: rest
      else (k, vs) :: Values_Add rest key value
  end.

(** Modelled from the spec: the provider kinds of the supported
    enumeration, the constants [systemconfig.GitHubProvider] and
    [systemconfig.GitLabProvider] of [pkg/shared/client/systemconfig]. *)
Definition GitHubProvider : string := "github".
Definition GitLabProvider : string := "gitlab".

(** Modelled from the spec: a protocol adapter instance configured with
    callback URL and client credentials; [github_New] and [gitlab_New]
    stand for [github.New] and [gitlab.New] of [internal/oauth], which
    are not part of this file. *)
Inductive Oauth : Type :=
| github_New (callbackURL clientID clientSecret address : string)
| gitlab_New (callbackURL clientID clientSecret address : string).

Definition Oauth_callbackURL (o : Oauth) : string :=
  match o with github_New cb _ _ _ | gitlab_New cb _ _ _ => cb end.
Definition Oauth_clientID (o : Oauth) : string :=
  match o with github_New _ id _ _ | gitlab_New _ id _ _ => id end.
Definition Oauth_clientSecret (o : Oauth) : string :=
  match o with github_New _ _ s _ | gitlab_New _ _ s _ => s end.
Definition Oauth_address (o : Oauth) : string :=
  match o with github_New _ _ _ a | gitlab_New _ _ _ a => a end.

(** Everything the two flow functions call outside this file: [net/url],
    [encoding/json] on the [state] struct, [pkg/tool/crypto] and the two
    methods of the [oauth.Oauth] interface.  [Aes] is the type of
    [*crypto.Aes] values, the nil pointer included; [Request] is
    [*http.Request].  [crypto_NewAes] returns the Go pair as it is,
    because the source reads its first component whatever the second. *)
Class Env : Type := {
  url_Parse : string -> error + URL;
  URL_String : URL -> string;
  URL_Query : URL -> Values;
  json_Marshal : state -> error + string;
  json_Unmarshal : string -> error + state;
  Aes : Type;
  crypto_GetAesKey : string;
  crypto_NewAes : string -> Aes * option error;
  Aes_Encrypt : Aes -> string -> error + string;
  Aes_Decrypt : Aes -> string -> error + string;
  Request : Type;
  Oauth_LoginURL : Oauth -> string -> string;
  Oauth_HandleCallback : Oauth -> Request -> error + Token
}.

(* ================================================================= *)
(** ** Provider selector *)

(** [func NewOAuth] *)
Definition NewOAuth (provider callbackURL clientID clientSecret address : string)
  : error + Oauth :=
  if String.eqb provider GitHubProvider then
    inr (github_New callbackURL clientID clientSecret address)
  else if String.eqb provider GitLabProvider then
    inr (gitlab_New callbackURL clientID clientSecret address)
  else inl (errors_New "illegal provider").

Section Flow.

Context {env : Env}.

(** [fmt.Sprintf("%s://%s%s", scheme, host, callback)] *)
Definition Sprintf_callbackURL (scheme host path : string) : string :=
  scheme ++ "://" ++ host ++ path.

(* ================================================================= *)
(** ** State codec *)

(** The encoding side, lines 110-119 of [AuthCodeHost]: [json.Marshal],
    then [crypto.NewAes] on the process-wide key, whose error is
    overwritten by that of [aes.Encrypt]. *)
Definition encodeState (stateStruct : state) : error + string :=
  match json_Marshal stateStruct with
  | inl err => inl err
  | inr bs =>
      let (aes, _) := crypto_NewAes crypto_GetAesKey in
      match Aes_Encrypt aes bs with
      | inl err => inl err
      | inr encrypted => inr encrypted
      end
  end.

(** The decoding side, lines 134-145 of [HandleCallback]:
    [crypto.NewAes] on the same key, [aes.Decrypt], [json.Unmarshal]. *)
Definition decodeState (stateStr : string) : error + state :=
  let (aes, _) := crypto_NewAes crypto_GetAesKey in
  match Aes_Decrypt aes stateStr with
  | inl err => inl err
  | inr decrypted =>
      match json_Unmarshal decrypted with
      | inl err => inl err
      | inr state => inr state
      end
  end.

(* ================================================================= *)
(** ** Authorization initiator *)

(** [func AuthCodeHost] *)
Definition AuthCodeHost (redirectURI : string) (codeHostID : Z)
  : M (string * option error) :=
  r <- GetCodeHost codeHostID ;;
  match r with
  | inl err => ret ("", Some err)
  | inr codeHost =>
      match url_Parse redirectURI with
      | inl err => ret ("", Some err)
      | inr redirectParsedURL =>
          let callbackURL :=
            Sprintf_callbackURL (Scheme redirectParsedURL)
              (Host redirectParsedURL) callback in
          match NewOAuth (Type_ codeHost) callbackURL (ApplicationId codeHost)
                  (ClientSecret codeHost) (Address codeHost) with
          | inl err => ret ("", Some err)
          | inr oauth =>
              let stateStruct := mkState (ID codeHost) redirectURI in
              match encodeState stateStruct with
              | inl err => ret ("", Some err)
              | inr encrypted => ret (Oauth_LoginURL oauth encrypted, None)
              end
          end
      end
  end.

(* ================================================================= *)
(** ** Callback resolver *)

(** [func handle].  [u.Query()] parses [u.RawQuery] into a new [Values]
    map on every call, and [Add] changes that map; the source never
    stores the map back into [u.RawQuery], so the map [q] below is where
    the added parameter lives and [u.String()] is computed from [u]. *)
Definition handle (redirectURL : string) (err : option error)
  : string * option error :=
  match url_Parse redirectURL with
  | inl parseErr => ("", Some parseErr)
  | inr u =>
      let q :=
        match err with
        | Some e => Values_Add (URL_Query u) "err" (Error e)
        | None => Values_Add (URL_Query u) "success" "true"
        end in
      (URL_String u, None)
  end.

(** [func HandleCallback] *)
Definition HandleCallback (stateStr : string) (r : Request)
  : M (string * option error) :=
  match decodeState stateStr with
  | inl err => ret ("", Some err)
  | inr state =>
      g <- GetCodeHost (CodeHostID state) ;;
      match g with
      | inl err => ret (handle (RedirectURL state) (Some err))
      | inr codehost =>
          match url_Parse (RedirectURL state) with
          | inl err => ret ("", Some err)
          | inr redirectParsedURL =>
              let callbackURL :=
                Sprintf_callbackURL (Scheme redirectParsedURL)
                  (Host redirectParsedURL) callback in
              match NewOAuth (Type_ codehost) callbackURL
                      (ApplicationId codehost) (ClientSecret codehost)
                      (Address codehost) with
              | inl err => ret (handle (RedirectURL state) (Some err))
              | inr o =>
                  match Oauth_HandleCallback o r with
                  | inl err => ret (handle (RedirectURL state) (Some err))
                  | inr token =>
                      let codehost :=
                        set_AccessToken codehost (tok_AccessToken token) in
                      let codehost :=
                        set_RefreshToken codehost (tok_RefreshToken token) in
                      p <- UpdateCodeHostByToken codehost ;;
                      match p with
                      | inl err => ret (handle (RedirectURL state) (Some err))
                      | inr _ => ret (handle (RedirectURL state) None)
                      end
                  end
              end
          end
      end
  end.

End Flow.

(* ================================================================= *)
(** ** Test doubles of the collaborators

    Executable stand-ins, used to run the flow on concrete inputs.  The
    general theorems below quantify over every [Env]; only the closed
    examples use these. *)

Module double.

(** *** [net/url]

    [Parse] and [String] for URLs with no userinfo, no bracketed host
    and no percent-escape (on those, [Path] and [Fragment] equal their
    escaped forms).  Error values carry the inner message, without
    the [parse] wrapper of [url.Error]. *)

Definition is_alpha (c : ascii) : bool :=
  let n := N_of_ascii c in
  ((97 <=? n) && (n <=? 122) || (65 <=? n) && (n <=? 90))%N.

Definition is_digit (c : ascii) : bool :=
  let n := N_of_ascii c in ((48 <=? n) && (n <=? 57))%N.

Definition is_ctl (c : ascii) : bool :=
  let n := N_of_ascii c in ((n <? 32) || (n =? 127))%N.

Definition to_lower (c : ascii) : ascii :=
  let n := N_of_ascii c in
  if ((65 <=? n) && (n <=? 90))%N then ascii_of_N (n + 32) else c.

Fixpoint map_string (f : ascii -> ascii) (s : string) : string :=
  match s with
  | "" => ""
  | String c r => String (f c) (map_string f r)
  end.

Fixpoint exists_char (p : ascii -> bool) (s : string) : bool :=
  match s with
  | "" => false
  | String c r => p c || exists_char p r
  end.

Fixpoint count_char (c : ascii) (s : string) : nat :=
  match s with
  | "" => 0%nat
  | String d r => ((if Ascii.eqb d c then 1 else 0) + count_char c r)%nat
  end.

(** [strings.Cut(s, sep)] for a one-byte separator. *)
Fixpoint Cut (s : string) (sep : ascii) : string * string * bool :=
  match s with
  | "" => ("", "", false)
  | String c r =>
      if Ascii.eqb c sep then ("", r, true)
      else let '(before, after, found) := Cut r sep in
           if found then (String c before, after, true)
           else (s, "", false)
  end.

(** The part of [s] from its first [sep] on ([s[i:]] in Go), the part
    before it, or all of [s] and nothing when there is none. *)
Fixpoint split_at (s : string) (sep : ascii) : string * string :=
  match s with
  | "" => ("", "")
  | String c r =>
      if Ascii.eqb c sep then ("", s)
      else let (before, from) := split_at r sep in (String c before, from)
  end.

Fixpoint drop_last (s : string) : string :=
  match s with
  | "" => ""
  | String c "" => ""
  | String c r => String c (drop_last r)
  end.

Fixpoint ends_with (s : string) (c : ascii) : bool :=
  match s with
  | "" => false
  | String d "" => Ascii.eqb d c
  | String _ r => ends_with r c
  end.

Definition nonempty (s : string) : bool := negb (String.eqb s "").

(** [getScheme]: the loop over the bytes of [rawURL]; [first] is
    [i == 0] and [seen] is [rawURL[:i]]. *)
Fixpoint getScheme_loop (first : bool) (seen rest rawURL : string)
  : error + (string * string) :=
  match rest with
  | "" => inr ("", rawURL)
  | String c rest' =>
      if is_alpha c then
        getScheme_loop false (seen ++ String c "") rest' rawURL
      else if is_digit c || Ascii.eqb c "+" || Ascii.eqb c "-" || Ascii.eqb c "."
      then
        if first then inr ("", rawURL)
        else getScheme_loop false (seen ++ String c "") rest' rawURL
      else if Ascii.eqb c ":" then
        if first then inl (errors_New "missing protocol scheme")
        else inr (seen, rest')
      else inr ("", rawURL)
  end.

Definition getScheme (rawURL : string) : error + (string * string) :=
  getScheme_loop true "" rawURL rawURL.

(** [parse(rawURL, false)] *)
Definition parse (rawURL : string) : error + URL :=
  if exists_char is_ctl rawURL then
    inl (errors_New "net/url: invalid control character in URL")
  else if String.eqb rawURL "*" then
    inr (mkURL "" "" "" "*" false false "" "")
  else
    match getScheme rawURL with
    | inl err => inl err
    | inr (scheme, rest) =>
        let scheme := map_string to_lower scheme in
        let '(rest, rawQuery, forceQuery) :=
          if ends_with rest "?" && Nat.eqb (count_char "?" rest) 1
          then (drop_last rest, "", true)
          else let '(before, after, _) := Cut rest "?" in
               (before, after, false) in
        if negb (String.prefix "/" rest) && nonempty scheme then
          inr (mkURL scheme rest "" "" false forceQuery rawQuery "")
        else if negb (String.prefix "/" rest)
                && exists_char (Ascii.eqb ":") (fst (fst (Cut rest "/")))
        then
          inl (errors_New "first path segment in URL cannot contain colon")
        else if (nonempty scheme || negb (String.prefix "///" rest))
                && String.prefix "//" rest
        then
          let (authority, rest) :=
            split_at (String.substring 2 (String.length rest - 2) rest) "/" in
          inr (mkURL scheme "" authority rest false forceQuery rawQuery "")
        else
          inr (mkURL scheme "" "" rest
                 (nonempty scheme && String.prefix "/" rest)
                 forceQuery rawQuery "")
    end.

(** [url.Parse] *)
Definition Parse (rawURL : string) : error + URL :=
  let '(u, frag, _) := Cut rawURL "#" in
  match parse u with
  | inl err => inl err
  | inr url =>
      inr (mkURL (Scheme url) (Opaque url) (Host url) (Path url)
             (OmitHost url) (ForceQuery url) (RawQuery url) frag)
  end.

(** The method [String] of [url.URL] *)
Definition url_String (u : URL) : string :=
  (if nonempty (Scheme u) then Scheme u ++ ":" else "")
  ++ (if nonempty (Opaque u) then Opaque u
      else
        (if nonempty (Scheme u) || nonempty (Host u) then
           if OmitHost u && negb (nonempty (Host u)) then ""
           else if nonempty (Host u) || nonempty (Path u)
                then "//" ++ Host u else ""
         else "")
        ++ (if nonempty (Path u) && negb (String.prefix "/" (Path u))
               && nonempty (Host u)
            then "/" else "")
        ++ Path u)
  ++ (if ForceQuery u || nonempty (RawQuery u) then "?" ++ RawQuery u else "")
  ++ (if nonempty (Fragment u) then "#" ++ Fragment u else "").

(** [ParseQuery] on keys and values with no escape: the pairs of the
    query split at [&], each split at its first [=]. *)
Fixpoint ParseQuery_fuel (fuel : nat) (query : string) (m : Values) : Values :=
  match fuel with
  | O => m
  | S fuel' =>
      if nonempty query then
        let '(kv, rest, _) := Cut query "&" in
        let '(key, value, _) := Cut kv "=" in
        ParseQuery_fuel fuel' rest
          (if nonempty kv then Values_Add m key value else m)
      else m
  end.

(** The method [Query] of [url.URL] *)
Definition url_Query (u : URL) : Values :=
  ParseQuery_fuel (S (String.length (RawQuery u))) (RawQuery u) [].

(** *** [encoding/json] on the [state] struct

    [Marshal] as Go prints a [state] whose string is ASCII; [Unmarshal]
    reads the documents [Marshal] prints (fields in declaration order, no
    white space) and reports every other input as malformed. *)

Definition dq : ascii := "034"%char.
Definition backslash : ascii := "092"%char.

Definition hex_digits : list ascii := list_ascii_of_string "0123456789abcdef".

Definition hex_digit (n : N) : ascii := nth (N.to_nat n) hex_digits "0"%char.

Definition hex_value (c : ascii) : option N :=
  let n := N_of_ascii c in
  if ((48 <=? n) && (n <=? 57))%N then Some (n - 48)%N
  else if ((97 <=? n) && (n <=? 102))%N then Some (n - 87)%N
  else if ((65 <=? n) && (n <=? 70))%N then Some (n - 55)%N
  else None.

Definition escape_char (c : ascii) : string :=
  let n := N_of_ascii c in
  if Ascii.eqb c dq then String backslash (String dq "")
  else if Ascii.eqb c backslash then String backslash (String backslash "")
  else if (n =? 10)%N then String backslash "n"
  else if (n =? 13)%N then String backslash "r"
  else if (n =? 9)%N then String backslash "t"
  else if (n <? 32)%N || Ascii.eqb c "<" || Ascii.eqb c ">" || Ascii.eqb c "&"
  then String backslash
         (String "u" (String "0" (String "0"
            (String (hex_digit (n / 16)) (String (hex_digit (n mod 16)) "")))))
  else String c "".

Fixpoint escape (s : string) : string :=
  match s with
  | "" => ""
  | String c r => escape_char c ++ escape r
  end.

Definition key_code_host_id : string :=
  String "{" (String dq "code_host_id") ++ String dq ":".

Definition key_redirect_url : string :=
  String "," (String dq "redirect_url") ++ String dq (String ":" (String dq "")).

Definition Marshal (st : state) : error + string :=
  inr (key_code_host_id
       ++ NilZero.string_of_int (Z.to_int (CodeHostID st))
       ++ key_redirect_url ++ escape (RedirectURL st)
       ++ String dq "}").

Fixpoint strip_prefix (p s : string) : option string :=
  match p, s with
  | "", _ => Some s
  | String a p', String b s' => if Ascii.eqb a b then strip_prefix p' s' else None
  | _, "" => None
  end.

(** The body of a string literal up to its closing quote, unescaped,
    and what follows the quote. *)
Fixpoint unquote (s : string) : option (string * string) :=
  let push (c : ascii) (r : option (string * string)) :=
    match r with
    | Some (body, after) => Some (String c body, after)
    | None => None
    end in
  match s with
  | "" => None
  | String c r =>
      if Ascii.eqb c dq then Some ("", r)
      else if (N_of_ascii c <? 32)%N then None
      else if Ascii.eqb c backslash then
        match r with
        | String e r' =>
            if Ascii.eqb e dq || Ascii.eqb e backslash || Ascii.eqb e "/"
            then push e (unquote r')
            else if Ascii.eqb e "n" then push "010"%char (unquote r')
            else if Ascii.eqb e "r" then push "013"%char (unquote r')
            else if Ascii.eqb e "t" then push "009"%char (unquote r')
            else if Ascii.eqb e "b" then push "008"%char (unquote r')
            else if Ascii.eqb e "f" then push "012"%char (unquote r')
            else if Ascii.eqb e "u" then
              match r' with
              | String "0" (String "0" (String h (String l r''))) =>
                  match hex_value h, hex_value l with
                  | Some x, Some y =>
                      push (ascii_of_N (16 * x + y)) (unquote r'')
                  | _, _ => None
                  end
              | _ => None
              end
            else None
        | "" => None
        end
      else push c (unquote r)
  end.

Definition malformed : error := errors_New "MalformedPayload".

Definition Unmarshal (data : string) : error + state :=
  match strip_prefix key_code_host_id data with
  | None => inl malformed
  | Some rest =>
      let (number, rest) := split_at rest "," in
      match NilZero.int_of_string number,
            strip_prefix key_redirect_url rest with
      | Some id, Some rest =>
          match unquote rest with
          | Some (url, "}") =>
              if nonempty number then inr (mkState (Z.of_int id) url)
              else inl malformed
          | _ => inl malformed
          end
      | _, _ => inl malformed
      end
  end.

(** *** [pkg/tool/crypto]

    Modelled from the spec: the cipher collaborator, a symmetric cipher
    under a process-wide key whose [decrypt] inverts [encrypt] and
    rejects what is not a ciphertext, with a transport-safe output.
    The stand-in adds the key's byte sum to every byte and prints
    hexadecimal; it is no AES. *)

Definition key_shift (key : string) : N :=
  fold_right (fun c acc => (N_of_ascii c + acc) mod 256)%N 0%N
    (list_ascii_of_string key).

Fixpoint hex_encode (shift : N) (s : string) : string :=
  match s with
  | "" => ""
  | String c r =>
      let n := ((N_of_ascii c + shift) mod 256)%N in
      String (hex_digit (n / 16)) (String (hex_digit (n mod 16))
        (hex_encode shift r))
  end.

Fixpoint hex_decode (shift : N) (s : string) : option string :=
  match s with
  | "" => Some ""
  | String h (String l r) =>
      match hex_value h, hex_value l, hex_decode shift r with
      | Some x, Some y, Some p =>
          Some (String (ascii_of_N ((16 * x + y + 256 - shift mod 256) mod 256)) p)
      | _, _, _ => None
      end
  | String _ "" => None
  end.

Definition DecryptFailure : error := errors_New "DecryptFailure".

Definition GetAesKey : string := "9F11B4E503C7F2B577E5F9366BDDAB64".

Definition NewAes (key : string) : string * option error := (key, None).

Definition Encrypt (aes : string) (plaintext : string) : error + string :=
  inr (hex_encode (key_shift aes) plaintext).

Definition Decrypt (aes : string) (ciphertext : string) : error + string :=
  match hex_decode (key_shift aes) ciphertext with
  | Some p => inr p
  | None => inl DecryptFailure
  end.

(** *** [internal/oauth]

    Modelled from the spec: [loginURL] builds the provider's
    authorize-endpoint URL with the opaque state as a parameter;
    [handleCallback] exchanges the inbound request for a token pair or
    fails.  The inbound request of the stand-in is the outcome of the
    exchange with the provider. *)

Definition LoginURL (o : Oauth) (opaqueState : string) : string :=
  Oauth_address o ++ "/login/oauth/authorize?client_id=" ++ Oauth_clientID o
  ++ "&redirect_uri=" ++ Oauth_callbackURL o ++ "&state=" ++ opaqueState.

Definition Exchange : Type := (error + Token)%type.

Definition HandleCallback (o : Oauth) (r : Exchange) : error + Token := r.

#[export] Instance env : Env := {|
  url_Parse := Parse;
  URL_String := url_String;
  URL_Query := url_Query;
  json_Marshal := Marshal;
  json_Unmarshal := Unmarshal;
  Aes := string;
  crypto_GetAesKey := GetAesKey;
  crypto_NewAes := NewAes;
  Aes_Encrypt := Encrypt;
  Aes_Decrypt := Decrypt;
  Request := Exchange;
  Oauth_LoginURL := LoginURL;
  Oauth_HandleCallback := HandleCallback
|}.

End double.

(* ================================================================= *)
(** * Properties *)

(** ** The store *)

(** The next store call reaches the store. *)
Definition reachable (w : World) : bool :=
  match outages w with
  | true :: _ => false
  | _ => true
  end.

Lemma call_unreachable {A : Type}
    (op : list CodeHost -> (error + A) * list CodeHost) (w : World) :
  reachable w = false ->
  fst (mongodb.call op w) = inl ErrStoreUnavailable /\
  docs (snd (mongodb.call op w)) = docs w.
Proof.
  unfold reachable, mongodb.call.
  destruct (outages w) as [|[|] later]; try discriminate.
  intros _; split; reflexivity.
Qed.

Lemma call_reachable {A : Type}
    (op : list CodeHost -> (error + A) * list CodeHost) (w : World) :
  reachable w = true ->
  fst (mongodb.call op w) = fst (op (docs w)) /\
  docs (snd (mongodb.call op w)) = snd (op (docs w)).
Proof.
  unfold reachable, mongodb.call.
  destruct (outages w) as [|[|] later]; try discriminate;
    intros _; destruct (op (docs w)); split; reflexivity.
Qed.

(** A store call whose operation leaves the collection alone leaves
    the stored records alone, reachable or not. *)
Lemma call_read_only {A : Type}
    (op : list CodeHost -> (error + A) * list CodeHost) (w : World) :
  (forall d, snd (op d) = d) ->
  docs (snd (mongodb.call op w)) = docs w.
Proof.
  intros Hop. destruct (reachable w) eqn:Hr.
  - destruct (call_reachable op w Hr) as [_ ->]. apply Hop.
  - destruct (call_unreachable op w Hr) as [_ ->]. reflexivity.
Qed.

Lemma GetCodeHost_read_only (id : Z) (w : World) :
  docs (snd (GetCodeHost id w)) = docs w.
Proof.
  unfold GetCodeHost, mongodb.GetCodeHostByID.
  apply call_read_only. intros d.
  destruct (find (mongodb.has_id id) d); reflexivity.
Qed.

(** ** Record lifecycle *)

Example base64_rfc4648_foobar :
  base64.EncodeToString "foobar" = "Zm9vYmFy" /\
  base64.EncodeToString "fooba" = "Zm9vYmE=" /\
  base64.EncodeToString "foob" = "Zm9vYg==" /\
  base64.EncodeToString "admin:secret" = "YWRtaW46c2VjcmV0".
Proof. repeat split; reflexivity. Qed.

(** The provider-specific defaults of [CreateCodeHost], as one function
    of the record handed in. *)
Definition with_defaults (c : CodeHost) : CodeHost :=
  let c1 := if String.eqb (Type_ c) "codehub" then set_IsReady c "2" else c in
  if String.eqb (Type_ c1) "gerrit"
  then set_AccessToken (set_IsReady c1 "2")
         (base64.EncodeToString (Sprintf_s_colon_s (Username c1) (Password c1)))
  else c1.

(** What a successful creation returns and stores: the record with its
    defaults, two clock readings and the id [len(list) + 1]. *)
Lemma CreateCodeHost_inr (c c' : CodeHost) (w w' : World) :
  CreateCodeHost c w = (inr c', w') ->
  exists t1 t2,
    c' = set_ID (set_UpdatedAt (set_CreatedAt (with_defaults c) t1) t2)
           (Z.of_nat (length (docs w ++ retired w)) + 1)
    /\ docs w' = (docs w ++ [c'])%list
    /\ retired w' = retired w.
Proof.
  unfold CreateCodeHost, bind, ret, time_Now_Unix, mongodb.CodeHostList,
    mongodb.AddCodeHost, mongodb.call, mongodb.call_full.
  fold (with_defaults c).
  destruct w as [d g o k]; simpl.
  destruct k as [|t1 [|t2 k]]; simpl;
    destruct o as [|[|] [|[|] o]]; simpl; intros H; inversion H; subst;
    eauto.
Qed.


(** On a store that stays reachable a creation succeeds. *)
Lemma CreateCodeHost_total (c : CodeHost) (d : list CodeHost) (k : list Z) :
  exists c' w', CreateCodeHost c (mkWorld d [] k) = (inr c', w').
Proof.
  unfold CreateCodeHost, bind, ret, time_Now_Unix, mongodb.CodeHostList,
    mongodb.AddCodeHost, mongodb.call.
  destruct k as [|t1 [|t2 k]]; simpl; eauto.
Qed.

Lemma with_defaults_gerrit (c : CodeHost) :
  Type_ c = "gerrit" ->
  with_defaults c =
  set_AccessToken (set_IsReady c "2")
    (base64.EncodeToString (Username c ++ ":" ++ Password c)).
Proof.
  intros H. unfold with_defaults. rewrite H. simpl. rewrite H. reflexivity.
Qed.

Lemma with_defaults_codehub (c : CodeHost) :
  Type_ c = "codehub" -> with_defaults c = set_IsReady c "2".
Proof.
  intros H. unfold with_defaults. rewrite H. simpl. rewrite H. reflexivity.
Qed.

(** C5. For every record passed to [CreateCodeHost] whose creation
    succeeds: a record of type "gerrit" is created with the standard
    base64 encoding of "username:password" as its access token and with
    [isReady] "2"; a record of type "codehub" is created with [isReady]
    "2" and the access token it came with.  The created record is the one
    returned and the one added to the store. *)
Theorem CreateCodeHost_provider_defaults (c c' : CodeHost) (w w' : World) :
  CreateCodeHost c w = (inr c', w') ->
  (Type_ c = "gerrit" ->
     AccessToken c' = base64.EncodeToString (Username c ++ ":" ++ Password c)
     /\ IsReady c' = "2")
  /\ (Type_ c = "codehub" ->
        IsReady c' = "2" /\ AccessToken c' = AccessToken c)
  /\ In c' (docs w').
Proof.
  intros H. apply CreateCodeHost_inr in H.
  destruct H as (t1 & t2 & -> & Hd & _).
  split; [|split].
  - intros Hg. rewrite (with_defaults_gerrit c Hg). split; reflexivity.
  - intros Hc. rewrite (with_defaults_codehub c Hc). split; reflexivity.
  - rewrite Hd. apply in_or_app. right. left. reflexivity.
Qed.

Definition gerrit_request : CodeHost :=
  mkCodeHost 0 "gerrit" "https://gerrit.example.com" "admin" "secret"
    "" "" "" "" "" 0 0.

Definition gerrit_created : CodeHost :=
  mkCodeHost 1 "gerrit" "https://gerrit.example.com" "admin" "secret"
    "" "" "YWRtaW46c2VjcmV0" "" "2" 1700000000 1700000001.

Lemma CreateCodeHost_provider_defaults_witness :
  CreateCodeHost gerrit_request (mkWorld [] [] [1700000000; 1700000001])
  = (inr gerrit_created, mkWorld [gerrit_created] [] [])
  /\ ((Type_ gerrit_request = "gerrit" ->
         AccessToken gerrit_created =
         base64.EncodeToString
           (Username gerrit_request ++ ":" ++ Password gerrit_request)
         /\ IsReady gerrit_created = "2")
      /\ (Type_ gerrit_request = "codehub" ->
            IsReady gerrit_created = "2"
            /\ AccessToken gerrit_created = AccessToken gerrit_request)
      /\ In gerrit_created (docs (mkWorld [gerrit_created] [] []))).
Proof.
  split.
  - reflexivity.
  - apply (CreateCodeHost_provider_defaults gerrit_request gerrit_created
             (mkWorld [] [] [1700000000; 1700000001])
             (mkWorld [gerrit_created] [] [])).
    reflexivity.
Defined.

(** ** Provider selector *)

(** An adapter [NewOAuth] returns is one of the two supported kinds
    and carries the four strings it was asked with. *)
Lemma NewOAuth_configured
    (provider callbackURL clientID clientSecret address : string) (o : Oauth) :
  NewOAuth provider callbackURL clientID clientSecret address = inr o ->
  (provider = GitHubProvider \/ provider = GitLabProvider)
  /\ Oauth_callbackURL o = callbackURL /\ Oauth_clientID o = clientID
  /\ Oauth_clientSecret o = clientSecret /\ Oauth_address o = address.
Proof.
  unfold NewOAuth.
  destruct (String.eqb_spec provider GitHubProvider);
    [|destruct (String.eqb_spec provider GitLabProvider)];
    intros H; inversion H; subst; simpl; tauto.
Qed.

(** C7. [NewOAuth] is a pure function of its five strings: for a
    provider kind that is neither of the two supported ones it returns
    the "illegal provider" error and no adapter; for "github" and for
    "gitlab" it returns that provider's adapter, configured with the
    given callback URL, client id, client secret and address. *)
Theorem NewOAuth_dispatch
    (provider callbackURL clientID clientSecret address : string) :
  (provider <> GitHubProvider -> provider <> GitLabProvider ->
     NewOAuth provider callbackURL clientID clientSecret address
     = inl (errors_New "illegal provider"))
  /\ NewOAuth GitHubProvider callbackURL clientID clientSecret address
     = inr (github_New callbackURL clientID clientSecret address)
  /\ NewOAuth GitLabProvider callbackURL clientID clientSecret address
     = inr (gitlab_New callbackURL clientID clientSecret address)
  /\ (forall o,
        NewOAuth provider callbackURL clientID clientSecret address = inr o ->
        (provider = GitHubProvider \/ provider = GitLabProvider)
        /\ Oauth_callbackURL o = callbackURL /\ Oauth_clientID o = clientID
        /\ Oauth_clientSecret o = clientSecret /\ Oauth_address o = address).
Proof.
  split; [|split; [|split]]; try reflexivity.
  - intros Hh Hl. unfold NewOAuth.
    destruct (String.eqb_spec provider GitHubProvider); [contradiction|].
    destruct (String.eqb_spec provider GitLabProvider); [contradiction|].
    reflexivity.
  - intros o. apply NewOAuth_configured.
Qed.

(** ** Identifier assignment *)














Definition github_request : CodeHost :=
  mkCodeHost 0 "github" "https://github.com" "" "" "client-id" "client-secret"
    "" "" "" 0 0.


(** ** The OAuth flow, for every implementation of the collaborators *)

Section FlowProperties.

Context {env : Env}.

(** [handle] computes its URL from the parsed redirect URL alone. *)
Lemma handle_unfold (redirectURL : string) (err : option error) :
  handle redirectURL err =
  match url_Parse redirectURL with
  | inl parseErr => ("", Some parseErr)
  | inr u => (URL_String u, None)
  end.
Proof. unfold handle. destruct (url_Parse redirectURL); reflexivity. Qed.

Lemma handle_ignores_err (redirectURL : string) (err : option error) :
  handle redirectURL err = handle redirectURL None.
Proof. rewrite !handle_unfold. reflexivity. Qed.

Ltac flow_cases :=
  repeat match goal with
         | |- context [match ?x with inl _ => _ | inr _ => _ end] =>
             destruct x eqn:?; simpl
         | |- context [let (_, _) := ?x in _] => destruct x eqn:?; simpl
         end.

(** The stored records after [AuthCodeHost] are those after its lookup. *)
Lemma AuthCodeHost_world (redirectURI : string) (codeHostID : Z) (w : World) :
  snd (AuthCodeHost redirectURI codeHostID w) = snd (GetCodeHost codeHostID w).
Proof.
  unfold AuthCodeHost, bind, ret.
  destruct (GetCodeHost codeHostID w) as [[e|c] w1]; simpl; [reflexivity|].
  flow_cases; reflexivity.
Qed.

Lemma GetCodeHost_inr_id (id : Z) (w : World) (c : CodeHost) :
  fst (GetCodeHost id w) = inr c ->
  ID c = id /\ In c (docs w) /\ reachable w = true.
Proof.
  unfold GetCodeHost, mongodb.GetCodeHostByID. intros H.
  destruct (reachable w) eqn:Hr.
  - destruct (call_reachable
                (fun d => match find (mongodb.has_id id) d with
                          | Some c => (inr c, d)
                          | None => (inl ErrNotFound, d)
                          end) w Hr) as [Hf _].
    rewrite Hf in H.
    destruct (find (mongodb.has_id id) (docs w)) as [c0|] eqn:Hfind;
      simpl in H; [|discriminate].
    inversion H; subst c0. apply find_some in Hfind. destruct Hfind as [Hin Hid].
    unfold mongodb.has_id in Hid. apply Z.eqb_eq in Hid. auto.
  - destruct (call_unreachable
                (fun d => match find (mongodb.has_id id) d with
                          | Some c => (inr c, d)
                          | None => (inl ErrNotFound, d)
                          end) w Hr) as [Hf _].
    rewrite Hf in H. discriminate.
Qed.

Lemma GetCodeHost_absent (id : Z) (w : World) :
  reachable w = true ->
  find (mongodb.has_id id) (docs w) = None ->
  fst (GetCodeHost id w) = inl ErrNotFound.
Proof.
  unfold GetCodeHost, mongodb.GetCodeHostByID. intros Hr Hfind.
  destruct (call_reachable
              (fun d => match find (mongodb.has_id id) d with
                        | Some c => (inr c, d)
                        | None => (inl ErrNotFound, d)
                        end) w Hr) as [Hf _].
  rewrite Hf, Hfind. reflexivity.
Qed.

(** C6. [AuthCodeHost] returns the error of the stage that failed, next
    to the empty login URL: the error of the record lookup, which on a
    reachable store that holds no record with the id is the store's
    [NotFound]; the error of parsing the redirect URI; the error of
    resolving the adapter. *)
Theorem AuthCodeHost_short_circuits
    (redirectURI : string) (codeHostID : Z) (w : World) :
  (forall e,
     fst (GetCodeHost codeHostID w) = inl e ->
     fst (AuthCodeHost redirectURI codeHostID w) = ("", Some e))
  /\ (reachable w = true ->
      find (mongodb.has_id codeHostID) (docs w) = None ->
      fst (AuthCodeHost redirectURI codeHostID w) = ("", Some ErrNotFound))
  /\ (forall codeHost e,
        fst (GetCodeHost codeHostID w) = inr codeHost ->
        url_Parse redirectURI = inl e ->
        fst (AuthCodeHost redirectURI codeHostID w) = ("", Some e))
  /\ (forall codeHost u e,
        fst (GetCodeHost codeHostID w) = inr codeHost ->
        url_Parse redirectURI = inr u ->
        NewOAuth (Type_ codeHost)
          (Scheme u ++ "://" ++ Host u ++ callback)
          (ApplicationId codeHost) (ClientSecret codeHost) (Address codeHost)
        = inl e ->
        fst (AuthCodeHost redirectURI codeHostID w) = ("", Some e)).
Proof.
  assert (Hlookup : forall e,
             fst (GetCodeHost codeHostID w) = inl e ->
             fst (AuthCodeHost redirectURI codeHostID w) = ("", Some e)).
  { intros e H. unfold AuthCodeHost, bind, ret.
    destruct (GetCodeHost codeHostID w) as [g w1]. simpl in H. subst g.
    reflexivity. }
  split; [exact Hlookup|]. split; [|split].
  - intros Hr Hfind. apply Hlookup. apply GetCodeHost_absent; assumption.
  - intros c e Hg Hp. unfold AuthCodeHost, bind, ret.
    destruct (GetCodeHost codeHostID w) as [g w1]. simpl in Hg. subst g.
    rewrite Hp. reflexivity.
  - intros c u e Hg Hp Hn. unfold AuthCodeHost, bind, ret.
    destruct (GetCodeHost codeHostID w) as [g w1]. simpl in Hg. subst g.
    rewrite Hp. unfold Sprintf_callbackURL. rewrite Hn. reflexivity.
Qed.

(** C8. When [AuthCodeHost] succeeds, the adapter it asked for the login
    URL was resolved with the callback URL
    [<scheme>://<host>/api/directory/codehosts/callback], scheme and host
    being those of the parsed redirect URI, and the state token in the
    login URL encodes the id of the looked-up record (the requested id)
    together with the redirect URI as it was passed in. *)
Theorem AuthCodeHost_callback_and_state
    (redirectURI : string) (codeHostID : Z) (w : World) (loginURL : string) :
  fst (AuthCodeHost redirectURI codeHostID w) = (loginURL, None) ->
  exists codeHost u oauth encrypted,
    fst (GetCodeHost codeHostID w) = inr codeHost
    /\ ID codeHost = codeHostID
    /\ url_Parse redirectURI = inr u
    /\ NewOAuth (Type_ codeHost)
         (Scheme u ++ "://" ++ Host u ++ "/api/directory/codehosts/callback")
         (ApplicationId codeHost) (ClientSecret codeHost) (Address codeHost)
       = inr oauth
    /\ Oauth_callbackURL oauth
       = Scheme u ++ "://" ++ Host u ++ "/api/directory/codehosts/callback"
    /\ encodeState (mkState (ID codeHost) redirectURI) = inr encrypted
    /\ loginURL = Oauth_LoginURL oauth encrypted.
Proof.
  unfold AuthCodeHost, bind, ret.
  destruct (GetCodeHost codeHostID w) as [[e|codeHost] w1] eqn:Hg; simpl;
    [discriminate|].
  destruct (url_Parse redirectURI) as [e|u] eqn:Hp; simpl; [discriminate|].
  unfold Sprintf_callbackURL, callback.
  destruct (NewOAuth _ _ _ _ _) as [e|oauth] eqn:Hn; simpl; [discriminate|].
  destruct (encodeState _) as [e|encrypted] eqn:He; simpl; [discriminate|].
  intros H. inversion H; subst.
  exists codeHost, u, oauth, encrypted.
  assert (Hid : ID codeHost = codeHostID).
  { apply (GetCodeHost_inr_id codeHostID w). rewrite Hg. reflexivity. }
  repeat split; try assumption; try reflexivity.
  apply (NewOAuth_configured _ _ _ _ _ _ Hn).
Qed.

End FlowProperties.

Section CallbackProperties.

Context {env : Env}.

(** X1. [HandleCallback] returns an error exactly when the state token
    does not decode or the redirect URL of the decoded state does not
    parse; the URL string is then empty. *)
Lemma HandleCallback_hard_error_iff
    (stateStr : string) (r : Request) (w : World) :
  (snd (fst (HandleCallback stateStr r w)) <> None <->
   (exists e, decodeState stateStr = inl e)
   \/ (exists st e, decodeState stateStr = inr st
                    /\ url_Parse (RedirectURL st) = inl e))
  /\ (snd (fst (HandleCallback stateStr r w)) <> None ->
      fst (fst (HandleCallback stateStr r w)) = "").
Proof.
  unfold HandleCallback, bind, ret.
  destruct (decodeState stateStr) as [e|st] eqn:Hd; simpl.
  { split; [split|]; [intros _; left; eauto | discriminate | reflexivity]. }
  assert (Hnot : ~ exists e0 : error, @inr error state st = inl e0)
    by (intros [e0 H]; discriminate).
  destruct (GetCodeHost (CodeHostID st) w) as [[e|c] w1]; simpl.
  { rewrite handle_unfold.
    destruct (url_Parse (RedirectURL st)) as [pe|u] eqn:Hp; simpl.
    - split; [split|]; [intros _; right; exists st, pe; auto
                       | discriminate | reflexivity].
    - split; [split|]; [congruence | | congruence].
      intros [H | (st' & e' & Hst & He')]; [contradiction|].
      inversion Hst; subst st'. congruence. }
  destruct (url_Parse (RedirectURL st)) as [pe|u] eqn:Hp; simpl.
  { split; [split|]; [intros _; right; exists st, pe; auto
                     | discriminate | reflexivity]. }
  assert (Hok : forall err : option error,
             (snd (handle (RedirectURL st) err) <> None <->
              (exists e0 : error, @inr error state st = inl e0)
              \/ (exists st0 e0, @inr error state st = inr st0
                                 /\ url_Parse (RedirectURL st0) = inl e0))
             /\ (snd (handle (RedirectURL st) err) <> None ->
                 fst (handle (RedirectURL st) err) = "")).
  { intros err. rewrite handle_unfold, Hp. simpl.
    split; [split|]; [congruence | | congruence].
    intros [H | (st' & e' & Hst & He')]; [contradiction|].
    inversion Hst; subst st'. congruence. }
  destruct (NewOAuth _ _ _ _ _) as [e|o]; simpl; [apply Hok|].
  destruct (Oauth_HandleCallback o r) as [e|token]; simpl; [apply Hok|].
  destruct (UpdateCodeHostByToken _ w1) as [[e|c'] w2]; simpl; apply Hok.
Qed.

(** Two records that differ in their token fields at most. *)
Definition same_but_tokens (c c' : CodeHost) : Prop :=
  set_RefreshToken (set_AccessToken c' (AccessToken c)) (RefreshToken c) = c.

Lemma same_but_tokens_refl (c : CodeHost) : same_but_tokens c c.
Proof. destruct c; reflexivity. Qed.

Lemma Forall2_same_but_tokens_refl (d : list CodeHost) :
  Forall2 same_but_tokens d d.
Proof. induction d; constructor; auto using same_but_tokens_refl. Qed.

Lemma UpdateCodeHostByToken_tokens_only (host : CodeHost) (w : World) :
  Forall2 same_but_tokens (docs w) (docs (snd (UpdateCodeHostByToken host w))).
Proof.
  unfold UpdateCodeHostByToken, mongodb.UpdateCodeHostByToken.
  destruct (reachable w) eqn:Hr.
  - match goal with |- context [mongodb.call ?op w] =>
      destruct (call_reachable op w Hr) as [_ ->] end.
    destruct (existsb (mongodb.has_id (ID host)) (docs w)); simpl;
      [|apply Forall2_same_but_tokens_refl].
    unfold mongodb.replace_by_id.
    induction (docs w) as [|c d IH]; simpl; constructor; [|exact IH].
    destruct (mongodb.has_id (ID host) c); destruct c; reflexivity.
  - match goal with |- context [mongodb.call ?op w] =>
      destruct (call_unreachable op w Hr) as [_ ->] end.
    apply Forall2_same_but_tokens_refl.
Qed.

(** [HandleCallback] keeps the stored records, their order and all their
    fields but the access and refresh tokens. *)
Lemma HandleCallback_tokens_only (stateStr : string) (r : Request) (w : World) :
  Forall2 same_but_tokens (docs w) (docs (snd (HandleCallback stateStr r w))).
Proof.
  unfold HandleCallback, bind, ret.
  destruct (decodeState stateStr) as [e|st]; simpl;
    [apply Forall2_same_but_tokens_refl|].
  pose proof (GetCodeHost_read_only (CodeHostID st) w) as Hg.
  destruct (GetCodeHost (CodeHostID st) w) as [[e|c] w1]; simpl in *;
    [rewrite Hg; apply Forall2_same_but_tokens_refl|].
  destruct (url_Parse (RedirectURL st)); simpl;
    [rewrite Hg; apply Forall2_same_but_tokens_refl|].
  destruct (NewOAuth _ _ _ _ _) as [e|o]; simpl;
    [rewrite Hg; apply Forall2_same_but_tokens_refl|].
  destruct (Oauth_HandleCallback o r) as [e|token]; simpl;
    [rewrite Hg; apply Forall2_same_but_tokens_refl|].
  match goal with |- context [UpdateCodeHostByToken ?h w1] =>
    pose proof (UpdateCodeHostByToken_tokens_only h w1) as Hu;
    destruct (UpdateCodeHostByToken h w1) as [[e|c'] w2] end;
    simpl in *; rewrite Hg in Hu; exact Hu.
Qed.

(** C10. [AuthCodeHost] leaves the stored records as they are, whatever
    its arguments and its outcome, and so does the lookup
    [GetCodeHost]; [HandleCallback] changes token fields at most. *)
Theorem AuthCodeHost_preserves_store
    (redirectURI : string) (codeHostID : Z) (w : World) :
  docs (snd (AuthCodeHost redirectURI codeHostID w)) = docs w
  /\ docs (snd (GetCodeHost codeHostID w)) = docs w
  /\ (forall stateStr r,
        Forall2 same_but_tokens (docs w)
          (docs (snd (HandleCallback stateStr r w)))).
Proof.
  rewrite AuthCodeHost_world.
  split; [|split]; try apply GetCodeHost_read_only.
  intros stateStr r. apply HandleCallback_tokens_only.
Qed.

(** *** State codec *)

(** The cipher law: what [Encrypt] produces, [Decrypt] with the same
    cipher value turns back into the plaintext. *)
Definition cipher_inverts : Prop :=
  forall (aes : Aes) (plaintext ciphertext : string),
    Aes_Encrypt aes plaintext = inr ciphertext ->
    Aes_Decrypt aes ciphertext = inr plaintext.

(** A valid correlation state: one that [encoding/json] prints and reads
    back. *)
Definition valid_state (st : state) : Prop :=
  exists bs, json_Marshal st = inr bs /\ json_Unmarshal bs = inr st.

(** C4. With a cipher whose [Decrypt] inverts [Encrypt], the token that
    the initiation side makes of a valid state (marshal, then encrypt
    under the process-wide key) decodes on the callback side (decrypt
    under the same key, then unmarshal) to that state. *)
Theorem state_codec_roundtrip (st : state) (token : string) :
  cipher_inverts ->
  valid_state st ->
  encodeState st = inr token ->
  decodeState token = inr st.
Proof.
  intros Hc (bs & Hm & Hu). unfold encodeState, decodeState.
  rewrite Hm.
  destruct (crypto_NewAes crypto_GetAesKey) as [aes err].
  destruct (Aes_Encrypt aes bs) as [e|encrypted] eqn:He; [discriminate|].
  intros H. inversion H; subst.
  rewrite (Hc aes bs token He), Hu. reflexivity.
Qed.

End CallbackProperties.

(** ** The discarded error of cipher construction *)

(** The collaborators of [env], with the error component of
    [crypto.NewAes] replaced by [report]; the cipher value it returns
    stays the same. *)
Definition with_NewAes_error (env : Env) (report : string -> option error)
  : Env := {|
  url_Parse := @url_Parse env;
  URL_String := @URL_String env;
  URL_Query := @URL_Query env;
  json_Marshal := @json_Marshal env;
  json_Unmarshal := @json_Unmarshal env;
  Aes := @Aes env;
  crypto_GetAesKey := @crypto_GetAesKey env;
  crypto_NewAes := fun key => (fst (@crypto_NewAes env key), report key);
  Aes_Encrypt := @Aes_Encrypt env;
  Aes_Decrypt := @Aes_Decrypt env;
  Request := @Request env;
  Oauth_LoginURL := @Oauth_LoginURL env;
  Oauth_HandleCallback := @Oauth_HandleCallback env
|}.

Lemma encodeState_NewAes_error (env : Env) (report : string -> option error)
    (st : state) :
  @encodeState (with_NewAes_error env report) st = @encodeState env st.
Proof.
  unfold encodeState. simpl.
  destruct (@json_Marshal env st); [reflexivity|].
  destruct (@crypto_NewAes env (@crypto_GetAesKey env)); reflexivity.
Qed.

Lemma decodeState_NewAes_error (env : Env) (report : string -> option error)
    (stateStr : string) :
  @decodeState (with_NewAes_error env report) stateStr
  = @decodeState env stateStr.
Proof.
  unfold decodeState. simpl.
  destruct (@crypto_NewAes env (@crypto_GetAesKey env)); reflexivity.
Qed.

(** C9. Neither [AuthCodeHost] nor [HandleCallback] depends on the error
    [crypto.NewAes] reports: with any other report next to the same
    cipher value, each returns the same result and leaves the same
    world. *)
Theorem NewAes_error_is_discarded (env : Env) (report : string -> option error) :
  (forall redirectURI codeHostID w,
     @AuthCodeHost (with_NewAes_error env report) redirectURI codeHostID w
     = @AuthCodeHost env redirectURI codeHostID w)
  /\ (forall stateStr (r : @Request env) w,
        @HandleCallback (with_NewAes_error env report) stateStr r w
        = @HandleCallback env stateStr r w).
Proof.
  split.
  - intros redirectURI codeHostID w. unfold AuthCodeHost, bind, ret.
    destruct (GetCodeHost codeHostID w) as [[e|c] w1]; [reflexivity|].
    change (@url_Parse (with_NewAes_error env report)) with (@url_Parse env).
    destruct (@url_Parse env redirectURI); [reflexivity|].
    destruct (NewOAuth _ _ _ _ _); [reflexivity|].
    rewrite encodeState_NewAes_error. reflexivity.
  - intros stateStr r w. unfold HandleCallback.
    rewrite decodeState_NewAes_error. reflexivity.
Qed.

(** ** The flow on the test doubles *)

Module double_facts.

Import double.

Lemma hex_value_digit (k : N) :
  (k < 16)%N -> hex_value (hex_digit k) = Some k.
Proof.
  intros H.
  assert (Hk : exists n, (n < 16)%nat /\ k = N.of_nat n)
    by (exists (N.to_nat k); split; lia).
  destruct Hk as (n & Hn & ->).
  do 16 (destruct n as [|n]; [reflexivity|]). lia.
Qed.

Lemma hex_decode_encode (shift : N) (s : string) :
  hex_decode shift (hex_encode shift s) = Some s.
Proof.
  induction s as [|c s IH]; [reflexivity|].
  cbn [hex_encode hex_decode].
  set (n := ((N_of_ascii c + shift) mod 256)%N).
  assert (Hn : (n < 256)%N) by (apply N.mod_lt; lia).
  rewrite !hex_value_digit, IH.
  - f_equal. f_equal.
    replace ((16 * (n / 16) + n mod 16 + 256 - shift mod 256) mod 256)%N
      with (N_of_ascii c); [apply ascii_N_embedding|].
    pose proof (N_ascii_bounded c) as Hc. subst n. clear IH Hn.
    zify. Z.to_euclidean_division_equations. lia.
  - apply N.mod_lt; lia.
  - apply N.Div0.div_lt_upper_bound. lia.
Qed.

Lemma cipher_inverts_double : @cipher_inverts env.
Proof.
  intros aes p c. simpl. unfold Encrypt, Decrypt. intros H.
  inversion H; subst. rewrite hex_decode_encode. reflexivity.
Qed.

End double_facts.

(** *** A worked authorization round trip *)

Definition example_record : CodeHost := set_ID github_request 5.

Definition example_world : World := mkWorld [example_record] [] [].

Definition example_uri : string := "https://app.example.com/done".

Definition example_state : state := mkState 5 example_uri.

(** The token [AuthCodeHost] puts in the login URL for [example_state]. *)
Definition example_token : string :=
  Eval vm_compute in
    match @encodeState double.env example_state with
    | inr encrypted => encrypted
    | inl _ => ""
    end.

Definition example_adapter : Oauth :=
  github_New "https://app.example.com/api/directory/codehosts/callback"
    "client-id" "client-secret" "https://github.com".

Definition example_login : string :=
  double.LoginURL example_adapter example_token.

Example AuthCodeHost_example :
  @AuthCodeHost double.env example_uri 5 example_world
  = ((example_login, None), example_world).
Proof. vm_compute. reflexivity. Qed.

Example AuthCodeHost_unknown_id :
  @AuthCodeHost double.env example_uri 6 example_world
  = (("", Some ErrNotFound), example_world).
Proof. vm_compute. reflexivity. Qed.

Example AuthCodeHost_malformed_uri :
  @AuthCodeHost double.env ":done" 5 example_world
  = (("", Some (errors_New "missing protocol scheme")), example_world).
Proof. vm_compute. reflexivity. Qed.

Example AuthCodeHost_gerrit_has_no_adapter :
  @AuthCodeHost double.env example_uri 1
    (mkWorld [set_ID (with_defaults gerrit_request) 1] [] [])
  = (("", Some (errors_New "illegal provider")),
     mkWorld [set_ID (with_defaults gerrit_request) 1] [] []).
Proof. vm_compute. reflexivity. Qed.

Example HandleCallback_undecryptable_state :
  fst (@HandleCallback double.env "not-a-token" (inr (mkToken "a" "r"))
         example_world)
  = ("", Some double.DecryptFailure).
Proof. vm_compute. reflexivity. Qed.

Example HandleCallback_stores_tokens :
  docs (snd (@HandleCallback double.env example_token
               (inr (mkToken "access" "refresh")) example_world))
  = [set_RefreshToken (set_AccessToken example_record "access") "refresh"].
Proof. vm_compute. reflexivity. Qed.

Lemma AuthCodeHost_callback_and_state_witness :
  fst (@AuthCodeHost double.env example_uri 5 example_world)
  = (example_login, None)
  /\ exists codeHost u oauth encrypted,
       fst (GetCodeHost 5 example_world) = inr codeHost
       /\ ID codeHost = 5
       /\ @url_Parse double.env example_uri = inr u
       /\ NewOAuth (Type_ codeHost)
            (Scheme u ++ "://" ++ Host u ++ "/api/directory/codehosts/callback")
            (ApplicationId codeHost) (ClientSecret codeHost) (Address codeHost)
          = inr oauth
       /\ Oauth_callbackURL oauth
          = Scheme u ++ "://" ++ Host u ++ "/api/directory/codehosts/callback"
       /\ @encodeState double.env (mkState (ID codeHost) example_uri)
          = inr encrypted
       /\ example_login = @Oauth_LoginURL double.env oauth encrypted.
Proof.
  split.
  - vm_compute. reflexivity.
  - apply (@AuthCodeHost_callback_and_state double.env example_uri 5
             example_world example_login).
    vm_compute. reflexivity.
Defined.

Lemma valid_example_state : @valid_state double.env example_state.
Proof.
  eexists. split; [reflexivity|]. vm_compute. reflexivity.
Qed.

Lemma state_codec_roundtrip_witness :
  @cipher_inverts double.env
  /\ @valid_state double.env example_state
  /\ @encodeState double.env example_state = inr example_token
  /\ @decodeState double.env example_token = inr example_state.
Proof.
  split; [exact double_facts.cipher_inverts_double|].
  split; [exact valid_example_state|].
  split; [vm_compute; reflexivity|].
  apply (@state_codec_roundtrip double.env example_state example_token).
  - exact double_facts.cipher_inverts_double.
  - exact valid_example_state.
  - vm_compute. reflexivity.
Defined.

(** C1. The code at the successful round trip of the worked example:
    [AuthCodeHost] for redirect URI [https://app.example.com/done] and
    the GitHub record 5 yields a login URL with the state token;
    [HandleCallback] on that token with a successful exchange returns
    the redirect URL as it was stored, [https://app.example.com/done],
    and not [https://app.example.com/done?success=true].  For every
    implementation of the collaborators [handle] returns the same for
    an error as for none. *)
Theorem HandleCallback_success_redirect_unmarked :
  fst (@AuthCodeHost double.env example_uri 5 example_world)
  = (example_login, None)
  /\ fst (@HandleCallback double.env example_token
            (inr (mkToken "access" "refresh")) example_world)
     = ("https://app.example.com/done", None)
  /\ fst (fst (@HandleCallback double.env example_token
                 (inr (mkToken "access" "refresh")) example_world))
     <> "https://app.example.com/done?success=true"
  /\ (forall (env : Env) (redirectURL : string) (err : option error),
        @handle env redirectURL err = @handle env redirectURL None).
Proof.
  split; [vm_compute; reflexivity|].
  split; [vm_compute; reflexivity|].
  split; [vm_compute; discriminate|].
  intros env redirectURL err. apply handle_ignores_err.
Qed.

(** C3. The code at three failures after the state was decoded, in the
    worked example: the record is gone, the exchange with the provider
    is rejected, the store cannot be reached for the update.  Each time
    [HandleCallback] returns no error and the redirect URL as it was
    stored, with no [err] parameter. *)
Theorem HandleCallback_failure_redirect_unmarked :
  fst (@HandleCallback double.env example_token
         (inr (mkToken "access" "refresh")) (mkWorld [] [] []))
  = ("https://app.example.com/done", None)
  /\ fst (@HandleCallback double.env example_token
            (inl (errors_New "exchange rejected")) example_world)
     = ("https://app.example.com/done", None)
  /\ fst (@HandleCallback double.env example_token
            (inr (mkToken "access" "refresh"))
            (mkWorld [example_record] [false; true] []))
     = ("https://app.example.com/done", None).
Proof.
  split; [vm_compute; reflexivity|].
  split; vm_compute; reflexivity.
Qed.

(* ================================================================= *)
(** * Further properties of the lifecycle and the flow *)

(** ** Lookups in the store *)

Lemma GetCodeHost_inr_find (id : Z) (w : World) (c : CodeHost) :
  fst (GetCodeHost id w) = inr c ->
  find (mongodb.has_id id) (docs w) = Some c /\ reachable w = true.
Proof.
  unfold GetCodeHost, mongodb.GetCodeHostByID. intros H.
  destruct (reachable w) eqn:Hr.
  - match type of H with context [mongodb.call ?op w] =>
      destruct (call_reachable op w Hr) as [Hf _] end.
    rewrite Hf in H.
    destruct (find (mongodb.has_id id) (docs w)); simpl in H;
      [inversion H; auto | discriminate].
  - match type of H with context [mongodb.call ?op w] =>
      destruct (call_unreachable op w Hr) as [Hf _] end.
    rewrite Hf in H. discriminate.
Qed.

Lemma GetCodeHost_found (id : Z) (w : World) (c : CodeHost) :
  reachable w = true ->
  find (mongodb.has_id id) (docs w) = Some c ->
  fst (GetCodeHost id w) = inr c.
Proof.
  unfold GetCodeHost, mongodb.GetCodeHostByID. intros Hr Hfind.
  match goal with |- context [mongodb.call ?op w] =>
    destruct (call_reachable op w Hr) as [Hf _] end.
  rewrite Hf, Hfind. reflexivity.
Qed.

Lemma find_has_id (id : Z) (d : list CodeHost) (c : CodeHost) :
  find (mongodb.has_id id) d = Some c ->
  ID c = id /\ existsb (mongodb.has_id id) d = true.
Proof.
  intros H. pose proof (find_some _ _ H) as [Hin Hid]. split.
  - unfold mongodb.has_id in Hid. now apply Z.eqb_eq in Hid.
  - apply existsb_exists. eauto.
Qed.

Lemma find_replace_by_id (f : CodeHost -> CodeHost) (id : Z)
    (d : list CodeHost) :
  (forall c, ID (f c) = ID c) ->
  find (mongodb.has_id id) (mongodb.replace_by_id f id d)
  = option_map f (find (mongodb.has_id id) d).
Proof.
  intros Hf. unfold mongodb.replace_by_id.
  induction d as [|c d IH]; simpl; [reflexivity|].
  destruct (mongodb.has_id id c) eqn:Hc.
  - unfold mongodb.has_id in *. rewrite Hf, Hc. reflexivity.
  - rewrite Hc. exact IH.
Qed.

Lemma find_app_snoc (id : Z) (d : list CodeHost) (c : CodeHost) :
  ID c = id ->
  find (mongodb.has_id id) (d ++ [c])
  = Some (match find (mongodb.has_id id) d with
          | Some old => old
          | None => c
          end).
Proof.
  intros Hc. induction d as [|x d IH]; simpl.
  - unfold mongodb.has_id. rewrite Hc, Z.eqb_refl. reflexivity.
  - destruct (mongodb.has_id id x); [reflexivity | exact IH].
Qed.

(** The store as modelled meets the spec's words on deletion: once a
    deletion has succeeded, a lookup of the id on the reachable store
    fails with [NotFound]. *)
Lemma DeleteCodeHost_then_GetCodeHost (id : Z) (w : World) :
  fst (DeleteCodeHost id w) = None ->
  reachable (snd (DeleteCodeHost id w)) = true ->
  fst (GetCodeHost id (snd (DeleteCodeHost id w))) = inl ErrNotFound.
Proof.
  intros Hd Hr. apply GetCodeHost_absent; [assumption|]. clear Hr.
  revert Hd.
  unfold DeleteCodeHost, mongodb.DeleteCodeHostByID, mongodb.call_full.
  destruct w as [d g o k]; simpl.
  assert (Hgone : find (mongodb.has_id id)
                    (filter (fun c => negb (mongodb.has_id id c)) d) = None).
  { induction d as [|c d IH]; simpl; [reflexivity|].
    destruct (mongodb.has_id id c) eqn:Hc; simpl; [exact IH|].
    rewrite Hc. exact IH. }
  destruct o as [|[|] o]; simpl;
    try destruct (existsb (mongodb.has_id id) d); simpl;
    intros H; try discriminate; exact Hgone.
Qed.

(** ** Record lifecycle *)

(** X7. A created record takes from the record handed in its type,
    address, user name, password, application id, client secret and
    refresh token; the access token unless the type is "gerrit"; the
    ready flag unless the type is "gerrit" or "codehub".  Its two
    timestamps are the next two readings of the clock, whatever the
    record handed in held. *)
Theorem CreateCodeHost_keeps_other_fields (c c' : CodeHost) (w w' : World) :
  CreateCodeHost c w = (inr c', w') ->
  Type_ c' = Type_ c /\ Address c' = Address c /\ Username c' = Username c
  /\ Password c' = Password c /\ ApplicationId c' = ApplicationId c
  /\ ClientSecret c' = ClientSecret c /\ RefreshToken c' = RefreshToken c
  /\ (Type_ c <> "gerrit" -> AccessToken c' = AccessToken c)
  /\ (Type_ c <> "gerrit" -> Type_ c <> "codehub" -> IsReady c' = IsReady c)
  /\ CreatedAt c' = hd 0 (clock w)
  /\ UpdatedAt c' = hd 0 (tl (clock w)).
Proof.
  unfold CreateCodeHost, bind, ret, time_Now_Unix, mongodb.CodeHostList,
    mongodb.AddCodeHost, mongodb.call, mongodb.call_full.
  destruct w as [d g o k]; simpl.
  destruct (String.eqb_spec (Type_ c) "codehub") as [Hc|Hc];
    [assert (Hg : Type_ c <> "gerrit") by (rewrite Hc; discriminate)|];
    simpl.
  - destruct (String.eqb_spec (Type_ c) "gerrit"); [contradiction|].
    destruct k as [|t1 [|t2 k]]; simpl;
      destruct o as [|[|] [|[|] o]]; simpl; intros H; inversion H; subst;
      simpl; repeat split; try reflexivity; intros; contradiction.
  - destruct (String.eqb_spec (Type_ c) "gerrit") as [Hg|Hg];
      destruct k as [|t1 [|t2 k]]; simpl;
      destruct o as [|[|] [|[|] o]]; simpl; intros H; inversion H; subst;
      simpl; repeat split; try reflexivity; intros; contradiction.
Qed.

Lemma CreateCodeHost_keeps_other_fields_witness :
  CreateCodeHost (set_IsReady (set_AccessToken github_request "given") "1")
    (mkWorld [] [] [1700000000])
  = (inr (mkCodeHost 1 "github" "https://github.com" "" "" "client-id"
            "client-secret" "given" "" "1" 1700000000 0),
     mkWorld [mkCodeHost 1 "github" "https://github.com" "" "" "client-id"
                "client-secret" "given" "" "1" 1700000000 0] [] [])
  /\ AccessToken
       (mkCodeHost 1 "github" "https://github.com" "" "" "client-id"
          "client-secret" "given" "" "1" 1700000000 0) = "given"
  /\ IsReady
       (mkCodeHost 1 "github" "https://github.com" "" "" "client-id"
          "client-secret" "given" "" "1" 1700000000 0) = "1".
Proof.
  split; [reflexivity|].
  destruct (CreateCodeHost_keeps_other_fields
              (set_IsReady (set_AccessToken github_request "given") "1")
              (mkCodeHost 1 "github" "https://github.com" "" "" "client-id"
                 "client-secret" "given" "" "1" 1700000000 0)
              (mkWorld [] [] [1700000000])
              (mkWorld [mkCodeHost 1 "github" "https://github.com" "" ""
                          "client-id" "client-secret" "given" "" "1"
                          1700000000 0] [] [])
              eq_refl)
    as (_ & _ & _ & _ & _ & _ & _ & Ha & Hr & _).
  split.
  - apply Ha. discriminate.
  - apply Hr; discriminate.
Defined.

(** X8. [CreateCodeHost] fails exactly when the store is unreachable
    for its listing or, the listing done, for its insertion; it then
    returns the store's error and the stored records are those from
    before. *)
Theorem CreateCodeHost_fails_iff (c : CodeHost) (w : World) :
  ((exists e, fst (CreateCodeHost c w) = inl e) <->
   (exists later, outages w = true :: later)
   \/ (exists later, outages w = false :: true :: later))
  /\ (forall e,
        fst (CreateCodeHost c w) = inl e ->
        e = ErrStoreUnavailable /\ docs (snd (CreateCodeHost c w)) = docs w).
Proof.
  unfold CreateCodeHost, bind, ret, time_Now_Unix, mongodb.CodeHostList,
    mongodb.AddCodeHost, mongodb.call, mongodb.call_full.
  destruct w as [d g o k]; simpl.
  destruct k as [|t1 [|t2 k]]; simpl;
    destruct o as [|[|] [|[|] o]]; simpl;
    (split;
     [split;
      [intros [e H]; try discriminate; eauto
      |intros [[later H] | [later H]]; try discriminate; eauto]
     |intros e H; inversion H; split; reflexivity]).
Qed.

(** X9. Looking up the id of a record just created returns that
    record, when the store is reachable and no record found by id
    already had this id. *)
Theorem CreateCodeHost_then_GetCodeHost (c c' : CodeHost) (w w' : World) :
  CreateCodeHost c w = (inr c', w') ->
  find (mongodb.has_id (ID c')) (docs w) = None ->
  reachable w' = true ->
  fst (GetCodeHost (ID c') w') = inr c'.
Proof.
  intros Hcreate Hfresh Hr. apply CreateCodeHost_inr in Hcreate.
  destruct Hcreate as (t1 & t2 & _ & Hdocs & _).
  apply GetCodeHost_found; [assumption|].
  rewrite Hdocs, (find_app_snoc (ID c') (docs w) c' eq_refl), Hfresh.
  reflexivity.
Qed.

Lemma CreateCodeHost_then_GetCodeHost_witness :
  CreateCodeHost github_request
    (mkWorld [set_ID (with_defaults gerrit_request) 1] [] [])
  = (inr (set_ID github_request 2),
     mkWorld [set_ID (with_defaults gerrit_request) 1;
              set_ID github_request 2] [] [])
  /\ find (mongodb.has_id (ID (set_ID github_request 2)))
       (docs (mkWorld [set_ID (with_defaults gerrit_request) 1] [] []))
     = None
  /\ reachable (mkWorld [set_ID (with_defaults gerrit_request) 1;
                         set_ID github_request 2] [] []) = true
  /\ fst (GetCodeHost (ID (set_ID github_request 2))
            (mkWorld [set_ID (with_defaults gerrit_request) 1;
                      set_ID github_request 2] [] []))
     = inr (set_ID github_request 2).
Proof.
  split; [reflexivity|]. split; [reflexivity|]. split; [reflexivity|].
  apply (CreateCodeHost_then_GetCodeHost github_request
           (set_ID github_request 2)
           (mkWorld [set_ID (with_defaults gerrit_request) 1] [] [])
           (mkWorld [set_ID (with_defaults gerrit_request) 1;
                     set_ID github_request 2] [] []));
    reflexivity.
Defined.

(** ** The flow *)

Section FlowFurther.

Context {env : Env}.

(** Where [encodeState] fails: in [json.Marshal] or in [aes.Encrypt]. *)
Lemma encodeState_inl (st : state) (e : error) :
  encodeState st = inl e <->
  json_Marshal st = inl e
  \/ (exists bs, json_Marshal st = inr bs
                 /\ Aes_Encrypt (fst (crypto_NewAes crypto_GetAesKey)) bs
                    = inl e).
Proof.
  unfold encodeState.
  destruct (json_Marshal st) as [e0|bs].
  - split; [intros H; left; exact H|].
    intros [H | (bs & H & _)]; [exact H | discriminate].
  - destruct (crypto_NewAes crypto_GetAesKey) as [aes err]; simpl.
    destruct (Aes_Encrypt aes bs) as [e0|c] eqn:He.
    + split.
      * intros H. right. exists bs. split; [reflexivity|]. congruence.
      * intros [H | (bs' & H & H')]; [discriminate|].
        inversion H; subst bs'. congruence.
    + split; [discriminate|].
      intros [H | (bs' & H & H')]; [discriminate|].
      inversion H; subst bs'. congruence.
Qed.

(** The decoding side inverts the encoding side (the content of the
    round-trip law, for use below). *)
Lemma decodeState_encodeState (st : state) (token : string) :
  cipher_inverts -> valid_state st ->
  encodeState st = inr token -> decodeState token = inr st.
Proof.
  intros Hc (bs & Hm & Hu). unfold encodeState, decodeState. rewrite Hm.
  destruct (crypto_NewAes crypto_GetAesKey) as [aes err].
  destruct (Aes_Encrypt aes bs) as [e|c] eqn:He; [discriminate|].
  intros H. inversion H; subst. rewrite (Hc _ _ _ He), Hu. reflexivity.
Qed.

(** X2. [AuthCodeHost] succeeds whenever the store is reachable and
    holds a record with the id, the record's type is "github" or
    "gitlab", the redirect URI parses and the state can be encoded.  The
    login URL is then the one the adapter builds for the encoded state,
    and the adapter carries the callback URL of the redirect URI and the
    application id, client secret and address of the record. *)
Theorem AuthCodeHost_succeeds
    (redirectURI : string) (codeHostID : Z) (w : World)
    (codeHost : CodeHost) (u : URL) (encrypted : string) :
  reachable w = true ->
  find (mongodb.has_id codeHostID) (docs w) = Some codeHost ->
  Type_ codeHost = GitHubProvider \/ Type_ codeHost = GitLabProvider ->
  url_Parse redirectURI = inr u ->
  encodeState (mkState codeHostID redirectURI) = inr encrypted ->
  exists oauth,
    fst (AuthCodeHost redirectURI codeHostID w)
    = (Oauth_LoginURL oauth encrypted, None)
    /\ Oauth_callbackURL oauth = Scheme u ++ "://" ++ Host u ++ callback
    /\ Oauth_clientID oauth = ApplicationId codeHost
    /\ Oauth_clientSecret oauth = ClientSecret codeHost
    /\ Oauth_address oauth = Address codeHost.
Proof.
  intros Hr Hfind Hty Hp He.
  pose proof (GetCodeHost_found codeHostID w codeHost Hr Hfind) as Hg.
  destruct (find_has_id _ _ _ Hfind) as [Hid _].
  unfold AuthCodeHost, bind, ret.
  destruct (GetCodeHost codeHostID w) as [g w1]. simpl in Hg. subst g.
  rewrite Hp, Hid, He. unfold Sprintf_callbackURL, NewOAuth.
  destruct Hty as [-> | ->]; simpl; eexists; repeat split.
Qed.

(** X3. When the record is found, the redirect URI parses and the
    adapter is resolved, but [json.Marshal] of the state or
    [aes.Encrypt] of its bytes fails, [AuthCodeHost] returns that error
    with the empty login URL. *)
Theorem AuthCodeHost_encode_failure
    (redirectURI : string) (codeHostID : Z) (w : World)
    (codeHost : CodeHost) (u : URL) (oauth : Oauth) (e : error) :
  fst (GetCodeHost codeHostID w) = inr codeHost ->
  url_Parse redirectURI = inr u ->
  NewOAuth (Type_ codeHost) (Scheme u ++ "://" ++ Host u ++ callback)
    (ApplicationId codeHost) (ClientSecret codeHost) (Address codeHost)
  = inr oauth ->
  json_Marshal (mkState (ID codeHost) redirectURI) = inl e
  \/ (exists bs,
        json_Marshal (mkState (ID codeHost) redirectURI) = inr bs
        /\ Aes_Encrypt (fst (crypto_NewAes crypto_GetAesKey)) bs = inl e) ->
  fst (AuthCodeHost redirectURI codeHostID w) = ("", Some e).
Proof.
  intros Hg Hp Hn He. apply encodeState_inl in He.
  unfold AuthCodeHost, bind, ret.
  destruct (GetCodeHost codeHostID w) as [g w1]. simpl in Hg. subst g.
  rewrite Hp. unfold Sprintf_callbackURL. rewrite Hn, He. reflexivity.
Qed.

(** Every path of [HandleCallback] past the decoded state ends in the
    parsed redirect URL, printed, with no error. *)
Lemma HandleCallback_decoded (stateStr : string) (r : Request) (w : World)
    (st : state) (u : URL) :
  decodeState stateStr = inr st ->
  url_Parse (RedirectURL st) = inr u ->
  fst (HandleCallback stateStr r w) = (URL_String u, None).
Proof.
  intros Hd Hp. unfold HandleCallback, bind, ret. rewrite Hd.
  assert (Hh : forall err, handle (RedirectURL st) err = (URL_String u, None))
    by (intros err; rewrite handle_unfold, Hp; reflexivity).
  destruct (GetCodeHost (CodeHostID st) w) as [[e|c] w1]; simpl;
    [apply Hh|].
  rewrite Hp.
  destruct (NewOAuth _ _ _ _ _) as [e|o]; simpl; [apply Hh|].
  destruct (Oauth_HandleCallback o r) as [e|token]; simpl; [apply Hh|].
  destruct (UpdateCodeHostByToken _ w1) as [[e|c'] w2]; simpl; apply Hh.
Qed.

(** X4. With a cipher whose [Decrypt] inverts [Encrypt], the token made
    of a valid state whose redirect URL parses is always answered by
    [HandleCallback] with that URL, parsed and printed, and no error:
    whatever the inbound request, the stored records and the
    reachability of the store. *)
Theorem HandleCallback_minted_token_redirects
    (st : state) (token : string) (u : URL) :
  cipher_inverts ->
  valid_state st ->
  encodeState st = inr token ->
  url_Parse (RedirectURL st) = inr u ->
  forall (r : Request) (w : World),
    fst (HandleCallback token r w) = (URL_String u, None).
Proof.
  intros Hc Hv He Hp r w.
  apply (HandleCallback_decoded token r w st u); [|assumption].
  apply decodeState_encodeState; assumption.
Qed.

(** X5. When every stage of [HandleCallback] succeeds and the store is
    reachable for the update, the stored records with the id of the
    state take the access and refresh token of the exchange, the other
    records stay, and a later lookup of that id returns the looked-up
    record with the two new tokens. *)
Theorem HandleCallback_persists_tokens
    (stateStr : string) (r : Request) (w : World)
    (st : state) (codehost : CodeHost) (u : URL) (o : Oauth) (token : Token) :
  decodeState stateStr = inr st ->
  fst (GetCodeHost (CodeHostID st) w) = inr codehost ->
  reachable (snd (GetCodeHost (CodeHostID st) w)) = true ->
  url_Parse (RedirectURL st) = inr u ->
  NewOAuth (Type_ codehost) (Scheme u ++ "://" ++ Host u ++ callback)
    (ApplicationId codehost) (ClientSecret codehost) (Address codehost)
  = inr o ->
  Oauth_HandleCallback o r = inr token ->
  docs (snd (HandleCallback stateStr r w))
  = map (fun c =>
           if ID c =? CodeHostID st
           then set_RefreshToken
                  (set_AccessToken c (tok_AccessToken token))
                  (tok_RefreshToken token)
           else c) (docs w)
  /\ (reachable (snd (HandleCallback stateStr r w)) = true ->
      fst (GetCodeHost (CodeHostID st) (snd (HandleCallback stateStr r w)))
      = inr (set_RefreshToken
               (set_AccessToken codehost (tok_AccessToken token))
               (tok_RefreshToken token))).
Proof.
  intros Hd Hg Hr1 Hp Hn Hx.
  destruct (GetCodeHost_inr_find _ _ _ Hg) as [Hfind _].
  destruct (find_has_id _ _ _ Hfind) as [Hid Hex].
  pose proof (GetCodeHost_read_only (CodeHostID st) w) as Hro.
  assert (Hdocs :
    docs (snd (HandleCallback stateStr r w))
    = mongodb.replace_by_id
        (fun c => set_RefreshToken
                    (set_AccessToken c (tok_AccessToken token))
                    (tok_RefreshToken token))
        (CodeHostID st) (docs w)).
  { unfold HandleCallback, bind, ret. rewrite Hd.
    destruct (GetCodeHost (CodeHostID st) w) as [g w1].
    simpl in Hg, Hr1, Hro. subst g. cbv beta iota.
    rewrite Hp. unfold Sprintf_callbackURL. rewrite Hn, Hx.
    unfold UpdateCodeHostByToken, mongodb.UpdateCodeHostByToken.
    match goal with |- context [mongodb.call ?op w1] =>
      destruct (call_reachable op w1 Hr1) as [_ Hs];
      destruct (mongodb.call op w1) as [[e|c'] w2] end;
      simpl in Hs |- *; rewrite Hs, Hro, Hid, Hex; reflexivity. }
  split; [exact Hdocs|].
  intros Hr2. apply GetCodeHost_found; [assumption|].
  rewrite Hdocs, find_replace_by_id, Hfind; [reflexivity|].
  intros c. reflexivity.
Qed.

(** X6. [HandleCallback] changes the stored records only after the
    state was decoded, the record found, the redirect URL parsed, the
    adapter resolved and the exchange with the provider answered by a
    token pair. *)
Theorem HandleCallback_writes_only_after_exchange
    (stateStr : string) (r : Request) (w : World) :
  docs (snd (HandleCallback stateStr r w)) <> docs w ->
  exists st codehost u o token,
    decodeState stateStr = inr st
    /\ fst (GetCodeHost (CodeHostID st) w) = inr codehost
    /\ url_Parse (RedirectURL st) = inr u
    /\ NewOAuth (Type_ codehost) (Scheme u ++ "://" ++ Host u ++ callback)
         (ApplicationId codehost) (ClientSecret codehost) (Address codehost)
       = inr o
    /\ Oauth_HandleCallback o r = inr token.
Proof.
  unfold HandleCallback, bind, ret.
  destruct (decodeState stateStr) as [e|st] eqn:Hd; simpl; [congruence|].
  pose proof (GetCodeHost_read_only (CodeHostID st) w) as Hro.
  destruct (GetCodeHost (CodeHostID st) w) as [[e|c] w1] eqn:Hg;
    simpl in Hro |- *; [congruence|].
  destruct (url_Parse (RedirectURL st)) as [e|u] eqn:Hp; simpl; [congruence|].
  unfold Sprintf_callbackURL.
  destruct (NewOAuth _ _ _ _ _) as [e|o] eqn:Hn; simpl; [congruence|].
  destruct (Oauth_HandleCallback o r) as [e|token] eqn:Hx; simpl;
    [congruence|].
  intros _. exists st, c, u, o, token.
  rewrite Hg. repeat split; first [reflexivity | exact Hp | exact Hn | exact Hx].
Qed.

End FlowFurther.

Lemma AuthCodeHost_succeeds_witness :
  reachable example_world = true
  /\ find (mongodb.has_id 5) (docs example_world) = Some example_record
  /\ (Type_ example_record = GitHubProvider
      \/ Type_ example_record = GitLabProvider)
  /\ @url_Parse double.env example_uri
     = inr (mkURL "https" "" "app.example.com" "/done" false false "" "")
  /\ @encodeState double.env (mkState 5 example_uri) = inr example_token
  /\ exists oauth,
       fst (@AuthCodeHost double.env example_uri 5 example_world)
       = (@Oauth_LoginURL double.env oauth example_token, None)
       /\ Oauth_callbackURL oauth
          = "https" ++ "://" ++ "app.example.com" ++ callback
       /\ Oauth_clientID oauth = ApplicationId example_record
       /\ Oauth_clientSecret oauth = ClientSecret example_record
       /\ Oauth_address oauth = Address example_record.
Proof.
  split; [reflexivity|]. split; [reflexivity|].
  split; [left; reflexivity|].
  split; [vm_compute; reflexivity|]. split; [vm_compute; reflexivity|].
  apply (@AuthCodeHost_succeeds double.env example_uri 5 example_world
           example_record
           (mkURL "https" "" "app.example.com" "/done" false false "" "")
           example_token).
  - reflexivity.
  - reflexivity.
  - left; reflexivity.
  - vm_compute; reflexivity.
  - vm_compute; reflexivity.
Defined.

(** The test doubles with a cipher whose [Encrypt] rejects every
    plaintext. *)
Definition env_encrypt_fails : Env := {|
  url_Parse := double.Parse;
  URL_String := double.url_String;
  URL_Query := double.url_Query;
  json_Marshal := double.Marshal;
  json_Unmarshal := double.Unmarshal;
  Aes := string;
  crypto_GetAesKey := double.GetAesKey;
  crypto_NewAes := double.NewAes;
  Aes_Encrypt := fun _ _ => inl (errors_New "encrypt failed");
  Aes_Decrypt := double.Decrypt;
  Request := double.Exchange;
  Oauth_LoginURL := double.LoginURL;
  Oauth_HandleCallback := double.HandleCallback
|}.

Definition example_url : URL :=
  mkURL "https" "" "app.example.com" "/done" false false "" "".

Definition example_tokens : Token := mkToken "access" "refresh".

Lemma AuthCodeHost_encode_failure_witness :
  fst (GetCodeHost 5 example_world) = inr example_record
  /\ @url_Parse env_encrypt_fails example_uri = inr example_url
  /\ NewOAuth (Type_ example_record)
       (Scheme example_url ++ "://" ++ Host example_url ++ callback)
       (ApplicationId example_record) (ClientSecret example_record)
       (Address example_record)
     = inr example_adapter
  /\ (@json_Marshal env_encrypt_fails (mkState (ID example_record) example_uri)
      = inl (errors_New "encrypt failed")
      \/ exists bs,
           @json_Marshal env_encrypt_fails
             (mkState (ID example_record) example_uri) = inr bs
           /\ @Aes_Encrypt env_encrypt_fails
                (fst (@crypto_NewAes env_encrypt_fails
                        (@crypto_GetAesKey env_encrypt_fails))) bs
              = inl (errors_New "encrypt failed"))
  /\ fst (@AuthCodeHost env_encrypt_fails example_uri 5 example_world)
     = ("", Some (errors_New "encrypt failed")).
Proof.
  assert (He : @json_Marshal env_encrypt_fails
                 (mkState (ID example_record) example_uri)
               = inl (errors_New "encrypt failed")
               \/ exists bs,
                    @json_Marshal env_encrypt_fails
                      (mkState (ID example_record) example_uri) = inr bs
                    /\ @Aes_Encrypt env_encrypt_fails
                         (fst (@crypto_NewAes env_encrypt_fails
                                 (@crypto_GetAesKey env_encrypt_fails))) bs
                       = inl (errors_New "encrypt failed")).
  { right. eexists. split; reflexivity. }
  split; [reflexivity|]. split; [vm_compute; reflexivity|].
  split; [reflexivity|]. split; [exact He|].
  apply (@AuthCodeHost_encode_failure env_encrypt_fails example_uri 5
           example_world example_record example_url example_adapter
           (errors_New "encrypt failed")).
  - reflexivity.
  - vm_compute; reflexivity.
  - reflexivity.
  - exact He.
Defined.

Lemma HandleCallback_minted_token_redirects_witness :
  @cipher_inverts double.env
  /\ @valid_state double.env example_state
  /\ @encodeState double.env example_state = inr example_token
  /\ @url_Parse double.env (RedirectURL example_state) = inr example_url
  /\ forall (r : @Request double.env) (w : World),
       fst (@HandleCallback double.env example_token r w)
       = (@URL_String double.env example_url, None).
Proof.
  split; [exact double_facts.cipher_inverts_double|].
  split; [exact valid_example_state|].
  split; [vm_compute; reflexivity|].
  split; [vm_compute; reflexivity|].
  apply (@HandleCallback_minted_token_redirects double.env example_state
           example_token example_url).
  - exact double_facts.cipher_inverts_double.
  - exact valid_example_state.
  - vm_compute; reflexivity.
  - vm_compute; reflexivity.
Defined.

Lemma HandleCallback_persists_tokens_witness :
  @decodeState double.env example_token = inr example_state
  /\ fst (GetCodeHost (CodeHostID example_state) example_world)
     = inr example_record
  /\ reachable (snd (GetCodeHost (CodeHostID example_state) example_world))
     = true
  /\ @url_Parse double.env (RedirectURL example_state) = inr example_url
  /\ NewOAuth (Type_ example_record)
       (Scheme example_url ++ "://" ++ Host example_url ++ callback)
       (ApplicationId example_record) (ClientSecret example_record)
       (Address example_record)
     = inr example_adapter
  /\ @Oauth_HandleCallback double.env example_adapter (inr example_tokens)
     = inr example_tokens
  /\ docs (snd (@HandleCallback double.env example_token
                  (inr example_tokens) example_world))
     = map (fun c =>
              if ID c =? CodeHostID example_state
              then set_RefreshToken
                     (set_AccessToken c (tok_AccessToken example_tokens))
                     (tok_RefreshToken example_tokens)
              else c) (docs example_world)
  /\ (reachable (snd (@HandleCallback double.env example_token
                        (inr example_tokens) example_world)) = true ->
      fst (GetCodeHost (CodeHostID example_state)
             (snd (@HandleCallback double.env example_token
                     (inr example_tokens) example_world)))
      = inr (set_RefreshToken
               (set_AccessToken example_record
                  (tok_AccessToken example_tokens))
               (tok_RefreshToken example_tokens))).
Proof.
  split; [vm_compute; reflexivity|]. split; [reflexivity|].
  split; [reflexivity|]. split; [vm_compute; reflexivity|].
  split; [reflexivity|]. split; [reflexivity|].
  apply (@HandleCallback_persists_tokens double.env example_token
           (inr example_tokens) example_world example_state example_record
           example_url example_adapter example_tokens).
  - vm_compute; reflexivity.
  - reflexivity.
  - reflexivity.
  - vm_compute; reflexivity.
  - reflexivity.
  - reflexivity.
Defined.

Lemma HandleCallback_writes_only_after_exchange_witness :
  docs (snd (@HandleCallback double.env example_token (inr example_tokens)
               example_world))
  <> docs example_world
  /\ exists st codehost u o token,
       @decodeState double.env example_token = inr st
       /\ fst (GetCodeHost (CodeHostID st) example_world) = inr codehost
       /\ @url_Parse double.env (RedirectURL st) = inr u
       /\ NewOAuth (Type_ codehost)
            (Scheme u ++ "://" ++ Host u ++ callback)
            (ApplicationId codehost) (ClientSecret codehost)
            (Address codehost)
          = inr o
       /\ @Oauth_HandleCallback double.env o (inr example_tokens) = inr token.
Proof.
  assert (Hne : docs (snd (@HandleCallback double.env example_token
                             (inr example_tokens) example_world))
                <> docs example_world)
    by (vm_compute; discriminate).
  split; [exact Hne|].
  apply (@HandleCallback_writes_only_after_exchange double.env example_token
           (inr example_tokens) example_world Hne).
Defined.

Lemma with_defaults_Type (c : CodeHost) : Type_ (with_defaults c) = Type_ c.
Proof.
  unfold with_defaults.
  destruct (Type_ c =? "codehub")%string; simpl;
    destruct (Type_ c =? "gerrit")%string; reflexivity.
Qed.

(** X10. A record created with type "gerrit" or "codehub" never starts
    the OAuth flow: once it is stored under an id no older record
    holds, [AuthCodeHost] for that id and a redirect URI that parses
    returns the "illegal provider" error and no login URL. *)
Theorem created_gerrit_or_codehub_has_no_flow {env : Env}
    (c c' : CodeHost) (w w' : World) (redirectURI : string) (u : URL) :
  CreateCodeHost c w = (inr c', w') ->
  Type_ c = "gerrit" \/ Type_ c = "codehub" ->
  find (mongodb.has_id (ID c')) (docs w) = None ->
  reachable w' = true ->
  url_Parse redirectURI = inr u ->
  fst (AuthCodeHost redirectURI (ID c') w')
  = ("", Some (errors_New "illegal provider")).
Proof.
  intros Hcreate Hty Hfresh Hr Hp.
  apply CreateCodeHost_inr in Hcreate.
  destruct Hcreate as (t1 & t2 & Hc' & Hdocs & _).
  assert (Htype : Type_ c' = Type_ c)
    by (rewrite Hc'; simpl; apply with_defaults_Type).
  assert (Hg : fst (GetCodeHost (ID c') w') = inr c').
  { apply GetCodeHost_found; [assumption|].
    rewrite Hdocs, (find_app_snoc (ID c') (docs w) c' eq_refl), Hfresh.
    reflexivity. }
  unfold AuthCodeHost, bind, ret.
  destruct (GetCodeHost (ID c') w') as [g w1]. simpl in Hg. subst g.
  rewrite Hp, Htype. unfold NewOAuth.
  destruct Hty as [-> | ->]; reflexivity.
Qed.

Lemma created_gerrit_or_codehub_has_no_flow_witness :
  CreateCodeHost gerrit_request (mkWorld [] [] [1700000000; 1700000001])
  = (inr gerrit_created, mkWorld [gerrit_created] [] [])
  /\ (Type_ gerrit_request = "gerrit" \/ Type_ gerrit_request = "codehub")
  /\ find (mongodb.has_id (ID gerrit_created))
       (docs (mkWorld [] [] [1700000000; 1700000001])) = None
  /\ reachable (mkWorld [gerrit_created] [] []) = true
  /\ @url_Parse double.env example_uri = inr example_url
  /\ fst (@AuthCodeHost double.env example_uri (ID gerrit_created)
            (mkWorld [gerrit_created] [] []))
     = ("", Some (errors_New "illegal provider")).
Proof.
  split; [reflexivity|]. split; [left; reflexivity|].
  split; [reflexivity|]. split; [reflexivity|].
  split; [vm_compute; reflexivity|].
  apply (@created_gerrit_or_codehub_has_no_flow double.env gerrit_request
           gerrit_created (mkWorld [] [] [1700000000; 1700000001])
           (mkWorld [gerrit_created] [] []) example_uri example_url).
  - reflexivity.
  - left; reflexivity.
  - reflexivity.
  - reflexivity.
  - vm_compute; reflexivity.
Defined.
